(** * cayenne_tsl: TSL2561 / TSL4531 ambient-light sensor drivers

    A shallow embedding of [cayenne_tsl/__init__.py].

    - Python [int] is [Z]; the bit operators [&], [|], [~], [<<] are
      [Z.land], [Z.lor], [Z.lnot], [Z.shiftl].
    - Python [float] is IEEE 754 binary64, i.e. Rocq's primitive [float]:
      [+], [-], [*], [/] and the comparisons are the same correctly rounded
      operations, and a decimal literal denotes the same nearest double.
    - [x ** y] on floats is the C library's [pow]; it is the one operation
      the kernel does not provide, so it is an interface ([Libm]).
    - Exceptions are values of [exn]; a method is a function from the device
      handle to an outcome and the handle it leaves behind.
    - The bus ([readRegister], [writeRegister], [readRegisters]) is the
      dictionary-backed register file of [TSL2561Test]. *)

From Stdlib Require Import ZArith Floats Bool String Lia.
From stdpp Require Import gmap.

Set Warnings "-inexact-float".
Local Open Scope Z_scope.

(** ** Python values and exceptions *)

Inductive exn : Set :=
| ValueError
| TypeError
| IndexError
| AttributeError
| OverflowError
| ZeroDivisionError
| UnboundLocalError.

(** A Python number: [int] or [float]. *)
Inductive num : Set :=
| Int (z : Z)
| Flt (f : float).

(** What a register of the test double's dictionary holds: an [int] put
    there by [writeRegister] (or the default [0]), or a [bytes] object. *)
Inductive regval : Set :=
| RInt (b : Z)
| RBytes (bs : list Z).

Definition res (A : Type) : Type := (exn + A)%type.

Definition ok {A} (a : A) : res A := inr a.
Definition raise {A} (e : exn) : res A := inl e.

Definition res_bind {A B} (r : res A) (k : A -> res B) : res B :=
  match r with
  | inl e => inl e
  | inr a => k a
  end.

Declare Scope res_scope.
Delimit Scope res_scope with res.
Notation "x <-? r ;; k" := (res_bind r (fun x => k))
  (at level 100, r at next level, right associativity) : res_scope.

(** ** Floating point *)

Module Py.

(** [float(z)]: the nearest double, ties to even; an [int] beyond the
    range of doubles raises [OverflowError]. *)
Definition float_of_int (z : Z) : res float :=
  let f := SF2Prim (binary_normalize prec emax z 0 false) in
  if is_infinity f then raise OverflowError else ok f.

(** [float(x)] for a number. *)
Definition float (x : num) : res PrimFloat.float :=
  match x with
  | Int z => float_of_int z
  | Flt f => ok f
  end.

(** [a * b] on numbers. *)
Definition mul (a b : num) : res num :=
  match a, b with
  | Int x, Int y => ok (Int (x * y))
  | _, _ =>
      (fa <-? float a ;; fb <-? float b ;; ok (Flt (fa * fb)%float))%res
  end.

(** [a * b] where [a] is a float: the result is always a float. *)
Definition fmul (a : PrimFloat.float) (b : num) : res PrimFloat.float :=
  (fb <-? float b ;; ok (a * fb)%float)%res.

(** [a / b] where [b] is a float (true division). *)
Definition div_float (a : num) (b : PrimFloat.float) : res PrimFloat.float :=
  (fa <-? float a ;;
   if (b =? 0)%float then raise ZeroDivisionError else ok (fa / b)%float)%res.

(** The integer a finite float is equal to, if it is one. Python compares
    an [int] with a [float] by value, without rounding the [int]. *)
Definition int_of_float_exact (f : PrimFloat.float) : option Z :=
  match Prim2SF f with
  | S754_zero _ => Some 0
  | S754_finite s m e =>
      let v := cond_Zopp s (Z.pos m) in
      if 0 <=? e then Some (v * 2 ^ e)
      else if v mod 2 ^ (- e) =? 0 then Some (v / 2 ^ (- e))
      else None
  | _ => None
  end.

(** [a == b] on numbers. *)
Definition eqb (a b : num) : bool :=
  match a, b with
  | Int x, Int y => x =? y
  | Flt x, Flt y => (x =? y)%float
  | Int x, Flt y | Flt y, Int x =>
      match int_of_float_exact y with
      | Some z => z =? x
      | None => false
      end
  end.

(** [a != b]. *)
Definition neqb (a b : num) : bool := negb (eqb a b).

(** Division of [a] by [b > 0] rounded to the nearest integer, ties to
    the even one. *)
Definition div_half_even (a b : Z) : Z :=
  let q := a / b in
  let r := a mod b in
  match 2 * r ?= b with
  | Lt => q
  | Gt => q + 1
  | Eq => if Z.even q then q else q + 1
  end.

(** [float('{0:.1f}'.format(f))]: the exact value of [f] is rounded to a
    whole number [n] of tenths (ties to even), printed as the decimal
    [n/10], and read back as the double nearest to it. Zeros, infinities
    and NaN print and read back as themselves; a negative value that
    rounds to no tenths prints as ['-0.0']. *)
Definition format_1f_float (f : PrimFloat.float) : PrimFloat.float :=
  match Prim2SF f with
  | S754_finite s m e =>
      let n := if 0 <=? e then 10 * Z.pos m * 2 ^ e
               else div_half_even (10 * Z.pos m) (2 ^ (- e)) in
      match n with
      | Z.pos p =>
          SF2Prim (SFdiv prec emax (S754_finite s p 0) (S754_finite false 10 0))
      | _ => if s then neg_zero else zero
      end
  | _ => f
  end.

(** [float('{0:.1f}'.format(x))] for a number: an [int] is first
    converted to a float. *)
Definition format_1f (x : num) : res PrimFloat.float :=
  (f <-? float x ;; ok (format_1f_float f))%res.

(** One unit in the last place around [p]: [f] is [p] or one of its two
    neighbours. *)
Definition within_ulp (f p : PrimFloat.float) : Prop :=
  f = next_down p \/ f = p \/ f = next_up p.

End Py.

(** The C library behind [float.__pow__]. *)
Class Libm := { pow : float -> float -> float }.

(** ** The device handle *)

(** The attributes of a device object, with the register dictionary of the
    test double. An attribute that has not been assigned yet is [None];
    [LUX_VALUE] then falls back to the class attribute [0]. *)
Record device : Type := mkDevice {
  registers : gmap Z regval;
  time_multiplier : option num;
  gain_multiplier : option num;
  LUX_VALUE : option num
}.

Definition set_registers (r : gmap Z regval) (d : device) : device :=
  mkDevice r (time_multiplier d) (gain_multiplier d) (LUX_VALUE d).
Definition set_time_multiplier (x : num) (d : device) : device :=
  mkDevice (registers d) (Some x) (gain_multiplier d) (LUX_VALUE d).
Definition set_gain_multiplier (x : num) (d : device) : device :=
  mkDevice (registers d) (time_multiplier d) (Some x) (LUX_VALUE d).
Definition set_LUX_VALUE (x : num) (d : device) : device :=
  mkDevice (registers d) (time_multiplier d) (gain_multiplier d) (Some x).

(** A method: runs on a handle, returns or raises, and leaves a handle. *)
Definition M (A : Type) : Type := device -> res A * device.

Definition ret {A} (a : A) : M A := fun d => (ok a, d).
Definition throw {A} (e : exn) : M A := fun d => (raise e, d).
Definition bind {A B} (m : M A) (k : A -> M B) : M B :=
  fun d =>
    match m d with
    | (inl e, d') => (inl e, d')
    | (inr a, d') => k a d'
    end.
Definition lift {A} (r : res A) : M A := fun d => (r, d).
Definition modify (f : device -> device) : M unit := fun d => (ok tt, f d).
Definition attr {A} (get : device -> option A) : M A :=
  fun d => match get d with
           | Some a => (ok a, d)
           | None => (raise AttributeError, d)
           end.

Declare Scope dev_scope.
Delimit Scope dev_scope with dev.
Notation "x <- m ;; k" := (bind m (fun x => k))
  (at level 100, m at next level, right associativity) : dev_scope.
Notation "m ;; k" := (bind m (fun _ => k))
  (at level 100, right associativity) : dev_scope.
Local Open Scope dev_scope.

(** ** The register file (class [TSL2561Test]) *)

Module Bus.

(** [readRegister]: an address never seen reads as [0] and is entered. *)
Definition readRegister (addr : Z) : M regval :=
  fun d =>
    match registers d !! addr with
    | Some v => (ok v, d)
    | None => (ok (RInt 0), set_registers (<[addr := RInt 0]> (registers d)) d)
    end.

(** [readRegisters]: an address never seen reads as [size] zero bytes. *)
Definition readRegisters (addr : Z) (size : nat) : M regval :=
  fun d =>
    match registers d !! addr with
    | Some v => (ok v, d)
    | None =>
        let z := RBytes (replicate size 0) in
        (ok z, set_registers (<[addr := z]> (registers d)) d)
    end.

Definition writeRegister (addr : Z) (value : Z) : M unit :=
  modify (fun d => set_registers (<[addr := RInt value]> (registers d)) d).

Definition writeRegisters (addr : Z) (value : list Z) : M unit :=
  modify (fun d => set_registers (<[addr := RBytes value]> (registers d)) d).

(** An [int] operand of a bit operator; [bytes] there is a [TypeError]. *)
Definition as_int (v : regval) : M Z :=
  match v with
  | RInt b => ret b
  | RBytes _ => throw TypeError
  end.

(** [v[i]]: subscript of what [readRegisters] returned. *)
Definition index (v : regval) (i : nat) : M Z :=
  match v with
  | RInt _ => throw TypeError
  | RBytes bs =>
      match bs !! i with
      | Some b => ret b
      | None => throw IndexError
      end
  end.

End Bus.

(** ** class TSL_LIGHT_X *)

Module TSL_LIGHT_X.

Definition VAL_COMMAND : Z := 0x80.
Definition REG_CONTROL : Z := Z.lor 0x00 VAL_COMMAND.
Definition REG_CONFIG : Z := Z.lor 0x01 VAL_COMMAND.

Definition VAL_PWON : Z := 0x03.
Definition VAL_PWOFF : Z := 0x00.
Definition VAL_INVALID : Z := -1.

(** [self.LUX_VALUE]: the instance attribute once [get_lux] has assigned
    it, the class attribute [LUX_VALUE = 0] before. *)
Definition self_LUX_VALUE (d : device) : num :=
  match LUX_VALUE d with
  | Some v => v
  | None => Int 0
  end.

Definition wake : M unit := Bus.writeRegister REG_CONTROL VAL_PWON.

Definition sleep : M unit := Bus.writeRegister REG_CONTROL VAL_PWOFF.

(** [set_time] and [get_time] call the subclass's [_set_time] and
    [_get_time]. *)
Definition set_time (_set_time : Z -> M unit) (time : Z) : M unit :=
  _set_time time.

Definition get_time (_get_time : M Z) : M Z := _get_time.

(** [__init__]; the bus set-up of [I2C.__init__] is outside this file. *)
Definition __init__ (_set_time : Z -> M unit) (time : Z) : M unit :=
  wake ;; set_time _set_time time.

End TSL_LIGHT_X.

(** ** class TSL2561X *)

Module TSL2561X.
Import TSL_LIGHT_X.

Definition VAL_TIME_402_MS : Z := 0x02.
Definition VAL_TIME_101_MS : Z := 0x01.
Definition VAL_TIME_14_MS : Z := 0x00.

Definition REG_CHANNEL_0_LOW : Z := Z.lor 0x0C VAL_COMMAND.
Definition REG_CHANNEL_1_LOW : Z := Z.lor 0x0E VAL_COMMAND.

Definition MASK_GAIN : Z := 0x10.
Definition MASK_TIME : Z := 0x03.

Definition set_gain (gain : Z) : M unit :=
  bit_gain <-
    (if gain =? 1 then
       modify (set_gain_multiplier (Int 16)) ;; ret 0
     else if gain =? 16 then
       modify (set_gain_multiplier (Int 1)) ;; ret 1
     else throw ValueError) ;;
  let new_byte_gain := Z.land (Z.shiftl bit_gain 4) MASK_GAIN in
  v <- Bus.readRegister REG_CONFIG ;;
  current_byte_config <- Bus.as_int v ;;
  let new_byte_config :=
    Z.lor (Z.land current_byte_config (Z.lnot MASK_GAIN)) new_byte_gain in
  Bus.writeRegister REG_CONFIG new_byte_config.

Definition get_gain : M Z :=
  v <- Bus.readRegister REG_CONFIG ;;
  current_byte_config <- Bus.as_int v ;;
  if negb (Z.land current_byte_config MASK_GAIN =? 0) then ret 16 else ret 1.

Definition _set_time (time : Z) : M unit :=
  if negb (existsb (Z.eqb time) [14; 101; 402]) then throw ValueError else
  bits_time <-
    (if time =? 402 then
       modify (set_time_multiplier (Int 1)) ;; ret VAL_TIME_402_MS
     else if time =? 101 then
       modify (set_time_multiplier (Flt (322 / 81)%float)) ;; ret VAL_TIME_101_MS
     else if time =? 14 then
       modify (set_time_multiplier (Flt (322 / 11)%float)) ;; ret VAL_TIME_14_MS
     else throw UnboundLocalError) ;;
  let new_byte_time := Z.land bits_time MASK_TIME in
  v <- Bus.readRegister REG_CONFIG ;;
  current_byte_config <- Bus.as_int v ;;
  let new_byte_config :=
    Z.lor (Z.land current_byte_config (Z.lnot MASK_TIME)) new_byte_time in
  Bus.writeRegister REG_CONFIG new_byte_config.

Definition _get_time : M Z :=
  v <- Bus.readRegister REG_CONFIG ;;
  current_byte_config <- Bus.as_int v ;;
  let bits_time := Z.land current_byte_config MASK_TIME in
  ret (if bits_time =? VAL_TIME_402_MS then 402
       else if bits_time =? VAL_TIME_101_MS then 101
       else if bits_time =? VAL_TIME_14_MS then 14
       else VAL_INVALID).

Definition set_time : Z -> M unit := TSL_LIGHT_X.set_time _set_time.
Definition get_time : M Z := TSL_LIGHT_X.get_time _get_time.

(** [get_lux]; [_calculate_lux] is the subclass's. *)
Definition get_lux (_calculate_lux : num -> num -> res num)
  : M (float * string * string) :=
  ch0_bytes <- Bus.readRegisters REG_CHANNEL_0_LOW 2 ;;
  ch1_bytes <- Bus.readRegisters REG_CHANNEL_1_LOW 2 ;;
  ch0_hi <- Bus.index ch0_bytes 1 ;;
  ch0_lo <- Bus.index ch0_bytes 0 ;;
  let ch0_word := Z.lor (Z.shiftl ch0_hi 8) ch0_lo in
  ch1_hi <- Bus.index ch1_bytes 1 ;;
  ch1_lo <- Bus.index ch1_bytes 0 ;;
  let ch1_word := Z.lor (Z.shiftl ch1_hi 8) ch1_lo in
  tm <- attr time_multiplier ;;
  gm <- attr gain_multiplier ;;
  scaling <- lift (Py.mul tm gm) ;;
  c0 <- lift (Py.mul scaling (Int ch0_word)) ;;
  c1 <- lift (Py.mul scaling (Int ch1_word)) ;;
  value <- lift (_calculate_lux c0 c1) ;;
  (if Py.neqb value (Int VAL_INVALID)
   then modify (set_LUX_VALUE value) else ret tt) ;;
  cached <- (fun d => (ok (self_LUX_VALUE d), d)) ;;
  r <- lift (Py.format_1f cached) ;;
  ret (r, "lum"%string, "lux"%string).

(** The first six statements of [get_lux] on their own: the value
    [_calculate_lux] returns for the channel words on the bus, before the
    cache is looked at. *)
Definition get_lux_value (_calculate_lux : num -> num -> res num) : M num :=
  ch0_bytes <- Bus.readRegisters REG_CHANNEL_0_LOW 2 ;;
  ch1_bytes <- Bus.readRegisters REG_CHANNEL_1_LOW 2 ;;
  ch0_hi <- Bus.index ch0_bytes 1 ;;
  ch0_lo <- Bus.index ch0_bytes 0 ;;
  let ch0_word := Z.lor (Z.shiftl ch0_hi 8) ch0_lo in
  ch1_hi <- Bus.index ch1_bytes 1 ;;
  ch1_lo <- Bus.index ch1_bytes 0 ;;
  let ch1_word := Z.lor (Z.shiftl ch1_hi 8) ch1_lo in
  tm <- attr time_multiplier ;;
  gm <- attr gain_multiplier ;;
  scaling <- lift (Py.mul tm gm) ;;
  c0 <- lift (Py.mul scaling (Int ch0_word)) ;;
  c1 <- lift (Py.mul scaling (Int ch1_word)) ;;
  lift (_calculate_lux c0 c1).

Definition __init__ (time gain : Z) : M unit :=
  TSL_LIGHT_X.__init__ _set_time time ;; set_gain gain.

End TSL2561X.

(** ** class TSL2561CS (chipscale package) *)

Module TSL2561CS.
Import TSL_LIGHT_X.
Local Open Scope float_scope.
Local Open Scope res_scope.

Definition _calculate_lux `{Libm} (channel0_value channel1_value : num)
  : res num :=
  f0 <-? Py.float channel0_value ;;
  if f0 =? 0.0 then ok (Int VAL_INVALID) else
  d0 <-? Py.float channel0_value ;;
  channel_ratio <-? Py.div_float channel1_value d0 ;;
  if (0 <=? channel_ratio) && (channel_ratio <=? 0.52) then
    a <-? Py.fmul 0.0315 channel0_value ;;
    b <-? Py.fmul 0.0593 channel0_value ;;
    ok (Flt (a - b * pow channel_ratio 1.4))
  else if (0.52 <? channel_ratio) && (channel_ratio <=? 0.65) then
    a <-? Py.fmul 0.0229 channel0_value ;;
    b <-? Py.fmul 0.0291 channel1_value ;;
    ok (Flt (a - b))
  else if (0.65 <? channel_ratio) && (channel_ratio <=? 0.80) then
    a <-? Py.fmul 0.0157 channel0_value ;;
    b <-? Py.fmul 0.0180 channel1_value ;;
    ok (Flt (a - b))
  else if (0.80 <? channel_ratio) && (channel_ratio <=? 1.30) then
    a <-? Py.fmul 0.00338 channel0_value ;;
    b <-? Py.fmul 0.00260 channel1_value ;;
    ok (Flt (a - b))
  else
    ok (Int 0%Z).

Definition get_lux `{Libm} : M (float * string * string) :=
  TSL2561X.get_lux _calculate_lux.

Definition __init__ (time gain : Z) : M unit := TSL2561X.__init__ time gain.

End TSL2561CS.

(** ** class TSL2561T (TMB-6 package) *)

Module TSL2561T.
Import TSL_LIGHT_X.
Local Open Scope float_scope.
Local Open Scope res_scope.

Definition _calculate_lux `{Libm} (channel0_value channel1_value : num)
  : res num :=
  f0 <-? Py.float channel0_value ;;
  if f0 =? 0.0 then ok (Int VAL_INVALID) else
  d0 <-? Py.float channel0_value ;;
  channel_ratio <-? Py.div_float channel1_value d0 ;;
  if (0 <=? channel_ratio) && (channel_ratio <=? 0.50) then
    a <-? Py.fmul 0.0304 channel0_value ;;
    b <-? Py.fmul 0.062 channel0_value ;;
    ok (Flt (a - b * pow channel_ratio 1.4))
  else if (0.50 <? channel_ratio) && (channel_ratio <=? 0.61) then
    a <-? Py.fmul 0.0224 channel0_value ;;
    b <-? Py.fmul 0.031 channel1_value ;;
    ok (Flt (a - b))
  else if (0.61 <? channel_ratio) && (channel_ratio <=? 0.80) then
    a <-? Py.fmul 0.0128 channel0_value ;;
    b <-? Py.fmul 0.0153 channel1_value ;;
    ok (Flt (a - b))
  else if (0.80 <? channel_ratio) && (channel_ratio <=? 1.30) then
    a <-? Py.fmul 0.00146 channel0_value ;;
    b <-? Py.fmul 0.00112 channel1_value ;;
    ok (Flt (a - b))
  else
    ok (Int 0%Z).

Definition get_lux `{Libm} : M (float * string * string) :=
  TSL2561X.get_lux _calculate_lux.

Definition __init__ (time gain : Z) : M unit := TSL2561X.__init__ time gain.

End TSL2561T.

(** ** class TSL2561: the default for unknown packages, a subclass of
    TSL2561T that inherits its [_calculate_lux] *)

Module TSL2561.

Definition _calculate_lux `{Libm} : num -> num -> res num :=
  TSL2561T._calculate_lux.

Definition get_lux `{Libm} : M (float * string * string) :=
  TSL2561X.get_lux _calculate_lux.

Definition __init__ (time gain : Z) : M unit := TSL2561X.__init__ time gain.

End TSL2561.

(** ** class TSL4531 *)

Module TSL4531.
Import TSL_LIGHT_X.

Definition VAL_TIME_400_MS : Z := 0x00.
Definition VAL_TIME_200_MS : Z := 0x01.
Definition VAL_TIME_100_MS : Z := 0x02.

Definition REG_DATA_LOW : Z := Z.lor 0x04 VAL_COMMAND.

Definition MASK_TCNTRL : Z := 0x03.

Definition _set_time (time : Z) : M unit :=
  if negb (existsb (Z.eqb time) [100; 200; 400]) then throw ValueError else
  bits_time <-
    (if time =? 400 then
       modify (set_time_multiplier (Int 1)) ;; ret VAL_TIME_400_MS
     else if time =? 200 then
       modify (set_time_multiplier (Int 2)) ;; ret VAL_TIME_200_MS
     else if time =? 100 then
       modify (set_time_multiplier (Int 4)) ;; ret VAL_TIME_100_MS
     else throw UnboundLocalError) ;;
  let new_byte_time := Z.land bits_time MASK_TCNTRL in
  v <- Bus.readRegister REG_CONFIG ;;
  current_byte_config <- Bus.as_int v ;;
  let new_byte_config :=
    Z.lor (Z.land current_byte_config (Z.lnot MASK_TCNTRL)) new_byte_time in
  Bus.writeRegister REG_CONFIG new_byte_config.

Definition _get_time : M Z :=
  v <- Bus.readRegister REG_CONFIG ;;
  current_byte_config <- Bus.as_int v ;;
  let bits_time := Z.land current_byte_config MASK_TCNTRL in
  ret (if bits_time =? VAL_TIME_400_MS then 400
       else if bits_time =? VAL_TIME_200_MS then 200
       else if bits_time =? VAL_TIME_100_MS then 100
       else VAL_INVALID).

Definition set_time : Z -> M unit := TSL_LIGHT_X.set_time _set_time.
Definition get_time : M Z := TSL_LIGHT_X.get_time _get_time.

Definition get_lux : M (num * string * string) :=
  data_bytes <- Bus.readRegisters REG_DATA_LOW 2 ;;
  tm <- attr time_multiplier ;;
  hi <- Bus.index data_bytes 1 ;;
  lo <- Bus.index data_bytes 0 ;;
  v <- lift (Py.mul tm (Int (Z.lor (Z.shiftl hi 8) lo))) ;;
  ret (v, "lum"%string, "lux"%string).

Definition __init__ (time : Z) : M unit :=
  TSL_LIGHT_X.__init__ _set_time time.

End TSL4531.

(** ** class TSL2561Test: the simulated device *)

Module TSL2561Test.

(** The object as [__init__] finds it after its first statement: the two
    channel registers hold the little-endian words 0x0B5C and 0x02D7,
    and no attribute is assigned yet. *)
Definition fresh : device :=
  mkDevice
    (<[TSL2561X.REG_CHANNEL_0_LOW := RBytes [0x5C; 0x0B]]>
       (<[TSL2561X.REG_CHANNEL_1_LOW := RBytes [0xD7; 0x02]]> ∅))
    None None None.

(** [TSL2561.__init__(self)] with its defaults [time=402], [gain=1]. *)
Definition __init__ : M unit := TSL2561.__init__ 402 1.

End TSL2561Test.

(** ** Reading the configuration register *)

(** What [readRegister(REG_CONFIG)] hands to the bit operators: the [int]
    stored there, [0] when the address was never written, and nothing they
    accept when the entry is a [bytes] object. *)
Definition config_byte (d : device) : option Z :=
  match registers d !! TSL_LIGHT_X.REG_CONFIG with
  | None => Some 0
  | Some (RInt b) => Some b
  | Some (RBytes _) => None
  end.

(** ** Handles used in the examples *)

Module Sample.

(** A handle whose configuration register was set by someone else: every
    bit of the byte is on. *)
Definition foreign_config : device :=
  mkDevice (<[TSL_LIGHT_X.REG_CONFIG := RInt 0xFF]> ∅) None None None.

(** The C library as far as the examples consult it: the doubles glibc
    returns for [pow(0.25, 1.4)] and [pow(0.52, 1.4)]. *)
Definition libm : Libm :=
  {| pow x y :=
       if (y =? 1.4)%float then
         if (x =? 0.25)%float then 0x1.2611186bae675p-3%float
         else if (x =? 0.52)%float then 0x1.99ecdb2cdba0bp-2%float
         else nan
       else nan |}.

(** A chipscale TSL2561 at 402 ms and gain 1 that has taken one reading
    of the channel words 2908 and 727, after which channel 0 reads as
    zero. *)
Definition dark_after_reading : device :=
  snd ((TSL2561CS.__init__ 402 1 ;;
        TSL2561CS.get_lux (H := libm) ;;
        Bus.writeRegisters TSL2561X.REG_CHANNEL_0_LOW [0x00; 0x00])
         TSL2561Test.fresh).

(** A chipscale TSL2561 at 101 ms and gain 1 whose channels read 9630
    and 12519, a ratio of exactly 1.3. *)
Definition band_edge : device :=
  snd (TSL2561CS.__init__ 101 1
         (mkDevice
            (<[TSL2561X.REG_CHANNEL_0_LOW := RBytes [0x9E; 0x25]]>
               (<[TSL2561X.REG_CHANNEL_1_LOW := RBytes [0xE7; 0x30]]> ∅))
            None None None)).

End Sample.

(** ** More handles used in the examples *)

Module Cases.

(** A handle whose configuration address was first read as a block, so
    that the dictionary holds a [bytes] object there. *)
Definition block_config : device :=
  snd (Bus.readRegisters TSL_LIGHT_X.REG_CONFIG 1
         (mkDevice ∅ None None None)).

(** A TSL4531 object before [__init__], whose data register holds the
    little-endian word 0x0110 = 272. *)
Definition photometer : device :=
  mkDevice (<[TSL4531.REG_DATA_LOW := RBytes [0x10; 0x01]]> ∅)
    None None None.

End Cases.

(** ** Checking a property of every integer of a range *)

(** [p] holds of the [n] integers from [z] on. *)
Fixpoint all_from (n : nat) (z : Z) (p : Z -> bool) : bool :=
  match n with
  | O => true
  | S k => p z && all_from k (z + 1) p
  end.

(** A result that is a value, not an exception. *)
Definition returns {A} (r : res A) : bool :=
  match r with
  | inr _ => true
  | inl _ => false
  end.

(** * Verification *)

(** ** Running the methods *)

Create HintDb tsl discriminated.

#[local] Hint Unfold bind ret throw lift modify attr ok raise res_bind : tsl.
#[local] Hint Unfold Bus.readRegister Bus.readRegisters Bus.writeRegister
  Bus.as_int Bus.index : tsl.
#[local] Hint Unfold TSL_LIGHT_X.set_time TSL_LIGHT_X.get_time
  TSL2561X.set_time TSL2561X.get_time TSL4531.set_time TSL4531.get_time : tsl.

(** Unfold one method down to the register dictionary. *)
Ltac run_method := autounfold with tsl; simpl.

(** Split on what the configuration register holds, given [config_byte]. *)
Ltac config_cases d Hb :=
  unfold config_byte in Hb;
  let Hreg := fresh "Hreg" in
  destruct (registers d !! TSL_LIGHT_X.REG_CONFIG) as [[? | ?] | ] eqn:Hreg;
  [ injection Hb as -> | discriminate Hb | injection Hb as <- ].

(** Case analysis on the outcome of the next call of a method body. *)
Ltac next_call :=
  match goal with
  | |- context [match ?m ?d with pair _ _ => _ end] =>
      destruct (m d) as [[? | ?] ?]
  end.

(** ** Facts about binary64 comparisons *)

Section FloatOrder.
Local Open Scope float_scope.

Lemma SFcompare_antisym (x y : spec_float) :
  SFcompare y x = option_map CompOpp (SFcompare x y).
Proof.
  destruct x as [sx | sx | | sx mx ex], y as [sy | sy | | sy my ey];
    simpl; try reflexivity;
    try (destruct sx; reflexivity); try (destruct sy; reflexivity);
    try (destruct sx, sy; reflexivity).
  destruct sx, sy; simpl; try reflexivity;
    rewrite (Z.compare_antisym ex ey);
    destruct (ex ?= ey)%Z; simpl; try reflexivity;
    change (Pos.compare_cont Eq my mx) with (Pos.compare my mx);
    change (Pos.compare_cont Eq mx my) with (Pos.compare mx my);
    rewrite (Pos.compare_antisym mx my);
    destruct (Pos.compare mx my); reflexivity.
Qed.

Lemma ltb_leb_false (x y : float) : (x <? y) = true -> (y <=? x) = false.
Proof.
  rewrite FloatAxioms.ltb_spec, FloatAxioms.leb_spec. unfold SFltb, SFleb.
  rewrite (SFcompare_antisym (Prim2SF x) (Prim2SF y)).
  destruct (SFcompare (Prim2SF x) (Prim2SF y)) as [[] | ]; simpl; congruence.
Qed.

Lemma eqb_finite_eq (x y : float) s m e :
  Prim2SF y = S754_finite s m e -> (x =? y) = true -> x = y.
Proof.
  intros Hy. rewrite FloatAxioms.eqb_spec. unfold SFeqb. rewrite Hy.
  intros H. apply Prim2SF_inj. rewrite Hy.
  destruct (Prim2SF x) as [sx | sx | | sx mx ex]; simpl in H;
    try discriminate H; try (destruct sx, s; discriminate H).
  destruct sx, s; try discriminate H;
    destruct (ex ?= e)%Z eqn:He; try discriminate H;
    apply Z.compare_eq in He; subst ex;
    change (Pos.compare_cont Eq mx m) with (Pos.compare mx m) in H;
    destruct (Pos.compare mx m) eqn:Hm; try discriminate H;
    apply Pos.compare_eq in Hm; subst mx; reflexivity.
Qed.

End FloatOrder.

(** ** Facts about read-modify-write of a bit field *)

Section BitField.

Lemma field_written (b m v : Z) :
  Z.land v m = v -> Z.land (Z.lor (Z.land b (Z.lnot m)) v) m = v.
Proof.
  intros Hv. rewrite Z.land_lor_distr_l, <- Z.land_assoc.
  rewrite (Z.land_comm (Z.lnot m) m), Z.land_lnot_diag, Z.land_0_r, Hv.
  reflexivity.
Qed.

Lemma field_frame_bit (b m v i : Z) :
  Z.land v m = v -> Z.testbit m i = false ->
  Z.testbit (Z.lor (Z.land b (Z.lnot m)) v) i = Z.testbit b i.
Proof.
  intros Hv Hm. destruct (Z.neg_nonneg_cases i) as [Hi | Hi].
  - rewrite !Z.testbit_neg_r by assumption. reflexivity.
  - rewrite Z.lor_spec, Z.land_spec, Z.lnot_spec by assumption.
    rewrite <- Hv, Z.land_spec, Hm, andb_false_r, orb_false_r, andb_true_r.
    reflexivity.
Qed.

Lemma field_frame_mask (b m v k : Z) :
  Z.land m k = 0 -> Z.land v k = 0 ->
  Z.land (Z.lor (Z.land b (Z.lnot m)) v) k = Z.land b k.
Proof.
  intros Hm Hv. apply Z.bits_inj'. intros i Hi.
  rewrite !Z.land_spec, Z.lor_spec, Z.land_spec, Z.lnot_spec by assumption.
  apply (f_equal (fun z => Z.testbit z i)) in Hm, Hv.
  rewrite Z.land_spec, Z.bits_0 in Hm, Hv.
  destruct (Z.testbit b i), (Z.testbit m i), (Z.testbit v i), (Z.testbit k i);
    simpl in *; congruence.
Qed.

End BitField.

Section Setters.
Import TSL_LIGHT_X.

(** The state a successful setter leaves: the multiplier it assigned and
    the byte it wrote. *)
Lemma _set_time_2561_run (d : device) (b t : Z) :
  config_byte d = Some b -> In t [14; 101; 402] ->
  exists bits m,
    ((t = 402 /\ bits = 2 /\ m = Int 1)
     \/ (t = 101 /\ bits = 1 /\ m = Flt (322 / 81)%float)
     \/ (t = 14 /\ bits = 0 /\ m = Flt (322 / 11)%float))
    /\ TSL2561X._set_time t d
       = (ok tt,
          mkDevice
            (<[REG_CONFIG := RInt (Z.lor (Z.land b (Z.lnot 3)) bits)]> (registers d))
            (Some m) (gain_multiplier d) (LUX_VALUE d)).
Proof.
  intros Hb Ht.
  destruct Ht as [<- | [<- | [<- | []]]];
    [ exists 0, (Flt (322 / 11)%float)
    | exists 1, (Flt (322 / 81)%float)
    | exists 2, (Int 1) ];
    (split; [ tauto | ]);
    unfold TSL2561X._set_time; run_method;
    config_cases d Hb; simpl; unfold set_registers; simpl;
    rewrite ?insert_insert_eq; reflexivity.
Qed.

Lemma _set_time_4531_run (d : device) (b t : Z) :
  config_byte d = Some b -> In t [100; 200; 400] ->
  exists bits m,
    ((t = 400 /\ bits = 0 /\ m = Int 1)
     \/ (t = 200 /\ bits = 1 /\ m = Int 2)
     \/ (t = 100 /\ bits = 2 /\ m = Int 4))
    /\ TSL4531._set_time t d
       = (ok tt,
          mkDevice
            (<[REG_CONFIG := RInt (Z.lor (Z.land b (Z.lnot 3)) bits)]> (registers d))
            (Some m) (gain_multiplier d) (LUX_VALUE d)).
Proof.
  intros Hb Ht.
  destruct Ht as [<- | [<- | [<- | []]]];
    [ exists 2, (Int 4) | exists 1, (Int 2) | exists 0, (Int 1) ];
    (split; [ tauto | ]);
    unfold TSL4531._set_time; run_method;
    config_cases d Hb; simpl; unfold set_registers; simpl;
    rewrite ?insert_insert_eq; reflexivity.
Qed.

Lemma set_gain_run (d : device) (b g : Z) :
  config_byte d = Some b -> In g [1; 16] ->
  exists bit m,
    ((g = 1 /\ bit = 0 /\ m = Int 16) \/ (g = 16 /\ bit = 16 /\ m = Int 1))
    /\ TSL2561X.set_gain g d
       = (ok tt,
          mkDevice
            (<[REG_CONFIG := RInt (Z.lor (Z.land b (Z.lnot 16)) bit)]> (registers d))
            (time_multiplier d) (Some m) (LUX_VALUE d)).
Proof.
  intros Hb Hg.
  destruct Hg as [<- | [<- | []]];
    [ exists 0, (Int 16) | exists 16, (Int 1) ];
    (split; [ tauto | ]);
    unfold TSL2561X.set_gain; run_method;
    config_cases d Hb; simpl; unfold set_registers; simpl;
    rewrite ?insert_insert_eq; reflexivity.
Qed.

(** A time outside the supported list is refused before anything is
    assigned or written. *)
Lemma _set_time_2561_refused (d : device) (t : Z) :
  ~ In t [14; 101; 402] -> TSL2561X._set_time t d = (raise ValueError, d).
Proof.
  intros Ht. unfold TSL2561X._set_time.
  replace (existsb (Z.eqb t) [14; 101; 402]) with false; [ reflexivity | ].
  symmetry. apply not_true_is_false. intros H.
  apply existsb_exists in H as (x & Hx & Heq).
  apply Z.eqb_eq in Heq. subst x. exact (Ht Hx).
Qed.

Lemma _set_time_4531_refused (d : device) (t : Z) :
  ~ In t [100; 200; 400] -> TSL4531._set_time t d = (raise ValueError, d).
Proof.
  intros Ht. unfold TSL4531._set_time.
  replace (existsb (Z.eqb t) [100; 200; 400]) with false; [ reflexivity | ].
  symmetry. apply not_true_is_false. intros H.
  apply existsb_exists in H as (x & Hx & Heq).
  apply Z.eqb_eq in Heq. subst x. exact (Ht Hx).
Qed.

Lemma set_gain_refused (d : device) (g : Z) :
  g <> 1 -> g <> 16 -> TSL2561X.set_gain g d = (raise ValueError, d).
Proof.
  intros H1 H16. unfold TSL2561X.set_gain.
  apply Z.eqb_neq in H1, H16. unfold bind at 1. rewrite H1, H16. reflexivity.
Qed.

(** What the getters answer, in terms of the byte they read. *)
Lemma _get_time_2561_run (d : device) (b : Z) :
  config_byte d = Some b ->
  fst (TSL2561X._get_time d)
  = ok (if Z.land b 3 =? 2 then 402
        else if Z.land b 3 =? 1 then 101
        else if Z.land b 3 =? 0 then 14 else -1).
Proof.
  intros Hb. unfold TSL2561X._get_time. run_method.
  config_cases d Hb; reflexivity.
Qed.

Lemma _get_time_4531_run (d : device) (b : Z) :
  config_byte d = Some b ->
  fst (TSL4531._get_time d)
  = ok (if Z.land b 3 =? 0 then 400
        else if Z.land b 3 =? 1 then 200
        else if Z.land b 3 =? 2 then 100 else -1).
Proof.
  intros Hb. unfold TSL4531._get_time. run_method.
  config_cases d Hb; reflexivity.
Qed.

Lemma get_gain_run (d : device) (b : Z) :
  config_byte d = Some b ->
  fst (TSL2561X.get_gain d) = ok (if Z.land b 16 =? 0 then 1 else 16).
Proof.
  intros Hb. unfold TSL2561X.get_gain. run_method.
  config_cases d Hb; simpl;
    try (change TSL2561X.MASK_GAIN with 16; destruct (Z.land _ 16 =? 0));
    reflexivity.
Qed.

Lemma config_byte_written (r : gmap Z regval) (b : Z) tm gm lv :
  config_byte (mkDevice (<[REG_CONFIG := RInt b]> r) tm gm lv) = Some b.
Proof. unfold config_byte. simpl. rewrite lookup_insert_eq. reflexivity. Qed.

End Setters.

Section SetterOutcomes.
Import TSL_LIGHT_X.

(** A setter that returned was given a supported value and found an
    [int] in the configuration register. *)
Lemma _set_time_2561_ok (d d' : device) (t : Z) :
  TSL2561X._set_time t d = (ok tt, d') ->
  In t [14; 101; 402] /\ exists b, config_byte d = Some b.
Proof.
  intros Hrun.
  destruct (in_dec Z.eq_dec t [14; 101; 402]) as [Hin | Hout].
  - split; [ exact Hin | ].
    destruct (config_byte d) as [b | ] eqn:Hb; [ eauto | exfalso ].
    unfold config_byte in Hb.
    destruct (registers d !! REG_CONFIG) as [[? | ?] | ] eqn:Hreg;
      try discriminate Hb.
    revert Hrun. unfold TSL2561X._set_time. run_method.
    destruct Hin as [<- | [<- | [<- | []]]]; simpl; rewrite Hreg;
      discriminate.
  - rewrite (_set_time_2561_refused d t Hout) in Hrun. discriminate Hrun.
Qed.

Lemma _set_time_4531_ok (d d' : device) (t : Z) :
  TSL4531._set_time t d = (ok tt, d') ->
  In t [100; 200; 400] /\ exists b, config_byte d = Some b.
Proof.
  intros Hrun.
  destruct (in_dec Z.eq_dec t [100; 200; 400]) as [Hin | Hout].
  - split; [ exact Hin | ].
    destruct (config_byte d) as [b | ] eqn:Hb; [ eauto | exfalso ].
    unfold config_byte in Hb.
    destruct (registers d !! REG_CONFIG) as [[? | ?] | ] eqn:Hreg;
      try discriminate Hb.
    revert Hrun. unfold TSL4531._set_time. run_method.
    destruct Hin as [<- | [<- | [<- | []]]]; simpl; rewrite Hreg;
      discriminate.
  - rewrite (_set_time_4531_refused d t Hout) in Hrun. discriminate Hrun.
Qed.

Lemma set_gain_ok (d d' : device) (g : Z) :
  TSL2561X.set_gain g d = (ok tt, d') ->
  In g [1; 16] /\ exists b, config_byte d = Some b.
Proof.
  intros Hrun.
  destruct (Z.eq_dec g 1) as [-> | H1]; [ | destruct (Z.eq_dec g 16) as [-> | H16] ].
  3: { rewrite (set_gain_refused d g H1 H16) in Hrun. discriminate Hrun. }
  all: (split; [ simpl; tauto | ]);
    (destruct (config_byte d) as [b | ] eqn:Hb; [ eauto | exfalso ]);
    unfold config_byte in Hb;
    (destruct (registers d !! REG_CONFIG) as [[? | ?] | ] eqn:Hreg;
      try discriminate Hb);
    revert Hrun; unfold TSL2561X.set_gain; run_method; rewrite Hreg;
    discriminate.
Qed.

End SetterOutcomes.

(** ** The gain and time codec *)

Section Codec.
Import TSL_LIGHT_X.

(** Claim C5. For every supported integration time of either chip family
    ([14], [101], [402] for the TSL2561, [100], [200], [400] for the
    TSL4531), [set_time(t)] followed by [get_time()] returns [t]. The
    handle's configuration register holds an [int] or was never
    written. *)
Theorem set_time_then_get_time (d : device) (b : Z) :
  config_byte d = Some b ->
  (forall t, In t [14; 101; 402] ->
     fst ((TSL2561X.set_time t ;; TSL2561X.get_time) d) = ok t)
  /\ (forall t, In t [100; 200; 400] ->
        fst ((TSL4531.set_time t ;; TSL4531.get_time) d) = ok t).
Proof.
  intros Hb. split; intros t Ht.
  - destruct (_set_time_2561_run d b t Hb Ht) as (bits & m & Hcase & Hrun).
    unfold bind, TSL2561X.set_time, TSL2561X.get_time,
      TSL_LIGHT_X.set_time, TSL_LIGHT_X.get_time.
    rewrite Hrun.
    rewrite (surjective_pairing (TSL2561X._get_time _)).
    rewrite (_get_time_2561_run _ _ (config_byte_written _ _ _ _ _)).
    destruct Hcase as [(-> & -> & _) | [(-> & -> & _) | (-> & -> & _)]];
      rewrite field_written by reflexivity; reflexivity.
  - destruct (_set_time_4531_run d b t Hb Ht) as (bits & m & Hcase & Hrun).
    unfold bind, TSL4531.set_time, TSL4531.get_time,
      TSL_LIGHT_X.set_time, TSL_LIGHT_X.get_time.
    rewrite Hrun.
    rewrite (surjective_pairing (TSL4531._get_time _)).
    rewrite (_get_time_4531_run _ _ (config_byte_written _ _ _ _ _)).
    destruct Hcase as [(-> & -> & _) | [(-> & -> & _) | (-> & -> & _)]];
      rewrite field_written by reflexivity; reflexivity.
Qed.

Lemma set_time_then_get_time_witness :
  fst ((TSL2561X.set_time 101 ;; TSL2561X.get_time) Sample.foreign_config) = ok 101
  /\ fst ((TSL4531.set_time 100 ;; TSL4531.get_time) TSL2561Test.fresh) = ok 100.
Proof.
  split.
  - apply (proj1 (set_time_then_get_time Sample.foreign_config 0xFF eq_refl)).
    simpl. tauto.
  - apply (proj2 (set_time_then_get_time TSL2561Test.fresh 0 eq_refl)).
    simpl. tauto.
Defined.

(** Claim C6. For a gain [g] of [1] or [16], [set_gain(g)] followed by
    [get_gain()] returns [g]; for any other gain [set_gain] raises
    [ValueError], the invalid-argument error, and leaves the handle as it
    was. *)
Theorem set_gain_then_get_gain (d : device) (b : Z) :
  config_byte d = Some b ->
  (forall g, In g [1; 16] ->
     fst ((TSL2561X.set_gain g ;; TSL2561X.get_gain) d) = ok g)
  /\ (forall g, ~ In g [1; 16] ->
        TSL2561X.set_gain g d = (raise ValueError, d)).
Proof.
  intros Hb. split; intros g Hg.
  - destruct (set_gain_run d b g Hb Hg) as (bit & m & Hcase & Hrun).
    unfold bind. rewrite Hrun.
    rewrite (surjective_pairing (TSL2561X.get_gain _)).
    rewrite (get_gain_run _ _ (config_byte_written _ _ _ _ _)).
    destruct Hcase as [(-> & -> & _) | (-> & -> & _)];
      rewrite field_written by reflexivity; reflexivity.
  - apply set_gain_refused; intros ->; apply Hg; simpl; tauto.
Qed.

Lemma set_gain_then_get_gain_witness :
  fst ((TSL2561X.set_gain 16 ;; TSL2561X.get_gain) TSL2561Test.fresh) = ok 16
  /\ TSL2561X.set_gain 4 TSL2561Test.fresh = (raise ValueError, TSL2561Test.fresh).
Proof.
  split.
  - apply (proj1 (set_gain_then_get_gain TSL2561Test.fresh 0 eq_refl)).
    simpl. tauto.
  - apply (proj2 (set_gain_then_get_gain TSL2561Test.fresh 0 eq_refl)).
    simpl. intros [H | [H | []]]; discriminate H.
Defined.

(** Claim C7. When the two time bits of the configuration byte are none
    of the patterns the encoder writes ([0x00], [0x01], [0x02]), that is
    when they are [0x03], [get_time] of both chip families returns the
    sentinel [-1]; it does not raise. *)
Theorem get_time_undefined (d : device) (b : Z) :
  config_byte d = Some b ->
  ~ In (Z.land b 0x03) [0x00; 0x01; 0x02] ->
  fst (TSL2561X.get_time d) = ok VAL_INVALID
  /\ fst (TSL4531.get_time d) = ok VAL_INVALID.
Proof.
  intros Hb Hbits.
  unfold TSL2561X.get_time, TSL4531.get_time, TSL_LIGHT_X.get_time.
  rewrite (_get_time_2561_run d b Hb), (_get_time_4531_run d b Hb).
  assert (H0 : (Z.land b 3 =? 0) = false)
    by (apply Z.eqb_neq; intros E; apply Hbits; rewrite E; simpl; tauto).
  assert (H1 : (Z.land b 3 =? 1) = false)
    by (apply Z.eqb_neq; intros E; apply Hbits; rewrite E; simpl; tauto).
  assert (H2 : (Z.land b 3 =? 2) = false)
    by (apply Z.eqb_neq; intros E; apply Hbits; rewrite E; simpl; tauto).
  rewrite H0, H1, H2. split; reflexivity.
Qed.

Lemma get_time_undefined_witness :
  fst (TSL2561X.get_time Sample.foreign_config) = ok (-1)
  /\ fst (TSL4531.get_time Sample.foreign_config) = ok (-1).
Proof.
  apply (get_time_undefined Sample.foreign_config 0xFF eq_refl).
  simpl. intros [H | [H | [H | []]]]; discriminate H.
Defined.

(** Claim C8. A successful [set_time] (of either family) writes back a
    configuration byte that agrees with the byte it read on every bit
    outside the time mask [0x03], and a successful [set_gain] one that
    agrees with it on every bit outside the gain mask [0x10]. *)
Theorem setters_keep_other_bits (d d' : device) (b : Z) :
  config_byte d = Some b ->
  (forall t, TSL2561X.set_time t d = (ok tt, d') ->
     exists b', registers d' !! REG_CONFIG = Some (RInt b')
       /\ forall i, Z.testbit 0x03 i = false -> Z.testbit b' i = Z.testbit b i)
  /\ (forall t, TSL4531.set_time t d = (ok tt, d') ->
        exists b', registers d' !! REG_CONFIG = Some (RInt b')
          /\ forall i, Z.testbit 0x03 i = false -> Z.testbit b' i = Z.testbit b i)
  /\ (forall g, TSL2561X.set_gain g d = (ok tt, d') ->
        exists b', registers d' !! REG_CONFIG = Some (RInt b')
          /\ forall i, Z.testbit 0x10 i = false -> Z.testbit b' i = Z.testbit b i).
Proof.
  intros Hb. repeat split.
  - intros t Hrun.
    destruct (_set_time_2561_ok d d' t Hrun) as (Ht & _).
    destruct (_set_time_2561_run d b t Hb Ht) as (bits & m & Hcase & Hrun').
    unfold TSL2561X.set_time, TSL_LIGHT_X.set_time in Hrun.
    rewrite Hrun' in Hrun. injection Hrun as <-.
    eexists. split; [ simpl; apply lookup_insert_eq | ].
    intros i Hi.
    destruct Hcase as [(_ & -> & _) | [(_ & -> & _) | (_ & -> & _)]];
      apply field_frame_bit; reflexivity || exact Hi.
  - intros t Hrun.
    destruct (_set_time_4531_ok d d' t Hrun) as (Ht & _).
    destruct (_set_time_4531_run d b t Hb Ht) as (bits & m & Hcase & Hrun').
    unfold TSL4531.set_time, TSL_LIGHT_X.set_time in Hrun.
    rewrite Hrun' in Hrun. injection Hrun as <-.
    eexists. split; [ simpl; apply lookup_insert_eq | ].
    intros i Hi.
    destruct Hcase as [(_ & -> & _) | [(_ & -> & _) | (_ & -> & _)]];
      apply field_frame_bit; reflexivity || exact Hi.
  - intros g Hrun.
    destruct (set_gain_ok d d' g Hrun) as (Hg & _).
    destruct (set_gain_run d b g Hb Hg) as (bit & m & Hcase & Hrun').
    rewrite Hrun' in Hrun. injection Hrun as <-.
    eexists. split; [ simpl; apply lookup_insert_eq | ].
    intros i Hi.
    destruct Hcase as [(_ & -> & _) | (_ & -> & _)];
      apply field_frame_bit; reflexivity || exact Hi.
Qed.

Lemma setters_keep_other_bits_witness :
  exists b', registers (snd (TSL2561X.set_time 101 Sample.foreign_config))
               !! REG_CONFIG = Some (RInt b')
    /\ forall i, Z.testbit 0x03 i = false -> Z.testbit b' i = Z.testbit 0xFF i.
Proof.
  apply (proj1 (setters_keep_other_bits Sample.foreign_config
                  (snd (TSL2561X.set_time 101 Sample.foreign_config))
                  0xFF eq_refl) 101).
  reflexivity.
Defined.



End Codec.

(** ** Reading the luminosity *)

Section Reading.
Import TSL_LIGHT_X.

(** [get_lux] is [get_lux_value] followed by the three statements on the
    cache. *)
Lemma get_lux_unfold (calc : num -> num -> res num) (d : device) :
  TSL2561X.get_lux calc d
  = match TSL2561X.get_lux_value calc d with
    | (inl e, d1) => (inl e, d1)
    | (inr value, d1) =>
        let d2 := if Py.neqb value (Int VAL_INVALID)
                  then set_LUX_VALUE value d1 else d1 in
        (res_bind (Py.format_1f (self_LUX_VALUE d2))
           (fun r => ok (r, "lum"%string, "lux"%string)), d2)
    end.
Proof.
  unfold TSL2561X.get_lux, TSL2561X.get_lux_value, bind.
  repeat (next_call; [ reflexivity | ]).
  destruct (Py.neqb _ _); unfold modify, ret, lift, ok, res_bind; simpl;
    destruct (Py.format_1f _); reflexivity.
Qed.

(** Computing the value touches no attribute: at most it enters the two
    channel registers in the dictionary. *)
Lemma get_lux_value_frame (calc : num -> num -> res num) (d d1 : device) r :
  TSL2561X.get_lux_value calc d = (r, d1) ->
  LUX_VALUE d1 = LUX_VALUE d
  /\ time_multiplier d1 = time_multiplier d
  /\ gain_multiplier d1 = gain_multiplier d.
Proof.
  unfold TSL2561X.get_lux_value. run_method.
  repeat case_match; intros; simplify_eq; simpl; auto.
Qed.

(** Claim C2. Let [value] be what [get_lux] computes on a handle. If it
    is the sentinel [-1], the cached reading stays what it was and
    [get_lux] reports that previous reading; otherwise the cache becomes
    [value]. Either way the report is the cached reading passed through
    ['{0:.1f}'] and tagged [('lum', 'lux')]. *)
Theorem get_lux_cache_policy
    (calc : num -> num -> res num) (d d1 : device) (value : num) :
  TSL2561X.get_lux_value calc d = (ok value, d1) ->
  (Py.eqb value (Int VAL_INVALID) = true ->
     LUX_VALUE d1 = LUX_VALUE d
     /\ TSL2561X.get_lux calc d
        = ((r <-? Py.format_1f (self_LUX_VALUE d) ;;
            ok (r, "lum"%string, "lux"%string))%res, d1))
  /\ (Py.eqb value (Int VAL_INVALID) = false ->
        LUX_VALUE (set_LUX_VALUE value d1) = Some value
        /\ TSL2561X.get_lux calc d
           = ((r <-? Py.format_1f value ;;
               ok (r, "lum"%string, "lux"%string))%res,
              set_LUX_VALUE value d1)).
Proof.
  intros Hvalue.
  destruct (get_lux_value_frame calc d d1 _ Hvalue) as (Hlux & _ & _).
  rewrite get_lux_unfold, Hvalue. unfold Py.neqb.
  unfold ok. split; intros E; cbv beta iota zeta; rewrite E; simpl;
    (split; [ assumption || reflexivity | ]).
  - unfold self_LUX_VALUE. rewrite Hlux. reflexivity.
  - reflexivity.
Qed.

Lemma get_lux_cache_policy_witness :
  fst (TSL2561X.get_lux (@TSL2561CS._calculate_lux Sample.libm)
         Sample.dark_after_reading)
  = ok (1069.5%float, "lum"%string, "lux"%string).
Proof.
  destruct (proj1 (get_lux_cache_policy
                     (@TSL2561CS._calculate_lux Sample.libm)
                     Sample.dark_after_reading Sample.dark_after_reading
                     (Int (-1)) eq_refl) eq_refl) as (_ & ->).
  reflexivity.
Defined.

End Reading.

(** ** The lux formulas *)

Section Formulas.
Import TSL_LIGHT_X.
Local Open Scope float_scope.

(** A number that compares equal to the [int] zero converts to a float
    that compares equal to [0.0]. *)
Lemma float_of_zero (x : num) :
  Py.eqb x (Int 0) = true ->
  exists f, Py.float x = ok f /\ (f =? 0.0) = true.
Proof.
  destruct x as [z | f]; simpl.
  - intros Hz. apply Z.eqb_eq in Hz. subst z. exists 0. split; reflexivity.
  - intros Hf. exists f. split; [ reflexivity | ].
    rewrite FloatAxioms.eqb_spec. revert Hf. unfold Py.int_of_float_exact.
    destruct (Prim2SF f) as [s | s | | s m e]; try discriminate.
    + reflexivity.
    + intros Hf. exfalso.
      assert (Hv : cond_Zopp s (Z.pos m) <> 0%Z) by (destruct s; discriminate).
      destruct (0 <=? e)%Z eqn:He; simpl in Hf.
      * apply Z.leb_le in He. apply Z.eqb_eq in Hf.
        apply Z.mul_eq_0 in Hf as [Hf | Hf]; [ exact (Hv Hf) | ].
        pose proof (Z.pow_pos_nonneg 2 e). lia.
      * apply Z.leb_gt in He.
        destruct (Z.eqb (Z.modulo (cond_Zopp s (Z.pos m)) (2 ^ (- e))) 0) eqn:Hm;
          [ | discriminate Hf ].
        apply Z.eqb_eq in Hm, Hf. apply Hv.
        rewrite (Z.div_mod (cond_Zopp s (Z.pos m)) (2 ^ (- e))%Z), Hm, Hf; [ lia | ].
        pose proof (Z.pow_pos_nonneg 2 (- e)). lia.
Qed.

(** Claim C1. When [channel0] equals zero, [_calculate_lux] of the CS
    package, of the T package and of the default class that inherits the
    T package's all return the sentinel [-1], whatever [channel1] is;
    they raise nothing. *)
Theorem calculate_lux_channel0_zero `{Libm} (channel0 channel1 : num) :
  Py.eqb channel0 (Int 0) = true ->
  TSL2561CS._calculate_lux channel0 channel1 = ok (Int VAL_INVALID)
  /\ TSL2561T._calculate_lux channel0 channel1 = ok (Int VAL_INVALID)
  /\ TSL2561._calculate_lux channel0 channel1 = ok (Int VAL_INVALID).
Proof.
  intros Hzero. destruct (float_of_zero channel0 Hzero) as (f & Hf & Hf0).
  unfold TSL2561._calculate_lux, TSL2561CS._calculate_lux,
    TSL2561T._calculate_lux.
  rewrite Hf. simpl. rewrite Hf0. repeat split; reflexivity.
Qed.

Lemma calculate_lux_channel0_zero_witness :
  @TSL2561CS._calculate_lux Sample.libm (Flt (-0)) (Int 727) = ok (Int (-1))
  /\ @TSL2561T._calculate_lux Sample.libm (Flt (-0)) (Int 727) = ok (Int (-1))
  /\ @TSL2561._calculate_lux Sample.libm (Flt (-0)) (Int 727) = ok (Int (-1)).
Proof.
  apply (@calculate_lux_channel0_zero Sample.libm (Flt (-0)) (Int 727)).
  reflexivity.
Defined.

(** Claim C3. In the CS package a channel ratio equal to [0.52] is
    computed with the first band's formula
    [0.0315*c0 - 0.0593*c0*ratio**1.4] (the upper end of the lowest band
    is included), and a ratio above [0.52] and at most [0.65] with the
    second band's formula [0.0229*c0 - 0.0291*c1]. *)
Theorem cs_band_boundary `{Libm} (c0 c1 : num) (f0 f1 : float) :
  Py.float c0 = ok f0 -> Py.float c1 = ok f1 -> (f0 =? 0.0) = false ->
  let ratio := f1 / f0 in
  ((ratio =? 0.52) = true ->
     TSL2561CS._calculate_lux c0 c1
     = ok (Flt (0.0315 * f0 - 0.0593 * f0 * pow ratio 1.4)))
  /\ ((0.52 <? ratio) = true -> (ratio <=? 0.65) = true ->
        TSL2561CS._calculate_lux c0 c1
        = ok (Flt (0.0229 * f0 - 0.0291 * f1))).
Proof.
  intros Hc0 Hc1 Hnz ratio.
  unfold TSL2561CS._calculate_lux, Py.div_float, Py.fmul.
  rewrite Hc0, Hc1. simpl. rewrite Hnz. fold ratio. split.
  - intros Heq.
    assert (Hr : ratio = 0.52)
      by (eapply eqb_finite_eq; [ vm_compute; reflexivity | exact Heq ]).
    rewrite Hr. reflexivity.
  - intros Hlo Hhi. unfold res_bind, ok. cbv beta iota.
    rewrite (ltb_leb_false _ _ Hlo), andb_false_r, Hlo, Hhi. reflexivity.
Qed.

Lemma cs_band_boundary_witness :
  @TSL2561CS._calculate_lux Sample.libm (Int 100) (Int 52)
  = ok (Flt (0.0315 * 100 - 0.0593 * 100 * 0x1.99ecdb2cdba0bp-2))
  /\ @TSL2561CS._calculate_lux Sample.libm (Int 1000000) (Int 520001)
     = ok (Flt (0.0229 * 1000000 - 0.0291 * 520001)).
Proof.
  split.
  - apply (proj1 (@cs_band_boundary Sample.libm (Int 100) (Int 52) 100 52
                    eq_refl eq_refl eq_refl) eq_refl).
  - apply (proj2 (@cs_band_boundary Sample.libm (Int 1000000) (Int 520001)
                    1000000 520001 eq_refl eq_refl eq_refl) eq_refl eq_refl).
Defined.

(** Claim C4. On a chipscale TSL2561 at 402 ms (time multiplier [1]) and
    gain 1 (gain multiplier [16]) whose channel registers hold the
    little-endian words 2908 and 727, [get_lux] scales the words to
    46528 and 11632, finds the ratio [0.25], caches the first band's value
    [0.0315*46528 - 0.0593*46528*0.25**1.4] and reports it to one
    decimal, 1069.5. The C library's [pow(0.25, 1.4)] is taken to be
    within one unit in the last place of 0.1435872943746294. *)
Theorem cs_reading_402ms_gain1 `{Libm} (d : device) :
  time_multiplier d = Some (Int 1) ->
  gain_multiplier d = Some (Int 16) ->
  registers d !! TSL2561X.REG_CHANNEL_0_LOW = Some (RBytes [0x5C; 0x0B]%Z) ->
  registers d !! TSL2561X.REG_CHANNEL_1_LOW = Some (RBytes [0xD7; 0x02]%Z) ->
  Py.within_ulp (pow 0.25 1.4) 0x1.2611186bae675p-3 ->
  let lux := 0.0315 * 46528 - 0.0593 * 46528 * pow 0.25 1.4 in
  TSL2561X.get_lux_value TSL2561CS._calculate_lux d
  = (TSL2561CS._calculate_lux (Int 46528) (Int 11632), d)
  /\ Py.div_float (Int 11632) 46528 = ok 0.25
  /\ TSL2561CS._calculate_lux (Int 46528) (Int 11632) = ok (Flt lux)
  /\ TSL2561CS.get_lux d
     = (ok (Py.format_1f_float lux, "lum"%string, "lux"%string),
        set_LUX_VALUE (Flt lux) d)
  /\ Py.format_1f_float lux = 1069.5.
Proof.
  intros Htm Hgm Hch0 Hch1 Hpow lux.
  assert (Hvalue : TSL2561X.get_lux_value TSL2561CS._calculate_lux d
                   = (TSL2561CS._calculate_lux (Int 46528) (Int 11632), d)).
  { unfold TSL2561X.get_lux_value. run_method.
    rewrite Hch0. simpl. rewrite Hch1. simpl.
    rewrite Htm. simpl. rewrite Hgm. reflexivity. }
  assert (Hcalc : TSL2561CS._calculate_lux (Int 46528) (Int 11632)
                  = ok (Flt lux)) by reflexivity.
  assert (Hne : Py.eqb (Flt lux) (Int VAL_INVALID) = false
                /\ Py.format_1f_float lux = 1069.5).
  { subst lux. destruct Hpow as [-> | [-> | ->]]; split; vm_compute; reflexivity. }
  destruct Hne as (Hne & Hfmt).
  repeat split; try assumption; try reflexivity.
  unfold TSL2561CS.get_lux. rewrite get_lux_unfold, Hvalue, Hcalc.
  unfold ok, Py.neqb. cbv beta iota zeta. rewrite Hne. reflexivity.
Qed.

Lemma cs_reading_402ms_gain1_witness :
  TSL2561CS.get_lux (H := Sample.libm)
    (snd (TSL2561CS.__init__ 402 1 TSL2561Test.fresh))
  = (ok (1069.5, "lum"%string, "lux"%string),
     set_LUX_VALUE (Flt 1069.4588027830987)
       (snd (TSL2561CS.__init__ 402 1 TSL2561Test.fresh))).
Proof.
  destruct (@cs_reading_402ms_gain1 Sample.libm
              (snd (TSL2561CS.__init__ 402 1 TSL2561Test.fresh))
              eq_refl eq_refl eq_refl eq_refl (or_intror (or_introl eq_refl)))
    as (_ & _ & _ & -> & _).
  reflexivity.
Defined.

(** Claim C10, evaluated where it fails. A chipscale TSL2561 at 101 ms
    and gain 1 reads the channel words 9630 and 12519. The scaled ratio is
    exactly [1.3], the fourth band's formula [0.00338*c0 - 0.0026*c1] is
    evaluated in binary64, and the value that [_calculate_lux] returns,
    and that [get_lux] caches, is negative; the report is [-0.0]. *)
Theorem cs_band_edge_negative `{Libm} :
  let c0 := 322 / 81 * 16 * 9630 in
  let c1 := 322 / 81 * 16 * 12519 in
  let lux := 0.00338 * c0 - 0.0026 * c1 in
  TSL2561X.get_lux_value TSL2561CS._calculate_lux Sample.band_edge
  = (TSL2561CS._calculate_lux (Flt c0) (Flt c1), Sample.band_edge)
  /\ (0 <? c0) = true
  /\ c1 / c0 = 1.3
  /\ TSL2561CS._calculate_lux (Flt c0) (Flt c1) = ok (Flt lux)
  /\ (lux <? 0) = true
  /\ TSL2561CS.get_lux Sample.band_edge
     = (ok (neg_zero, "lum"%string, "lux"%string),
        set_LUX_VALUE (Flt lux) Sample.band_edge).
Proof.
  repeat split; vm_compute; reflexivity.
Qed.

End Formulas.

(** ** More facts about binary64 comparisons *)

Section FloatOrderMore.
Local Open Scope float_scope.

Lemma SFltb_SFleb_trans (x y z : spec_float) :
  SFltb x y = true -> SFleb y z = true -> SFltb x z = true.
Proof.
  unfold SFltb, SFleb.
  destruct x as [sx | sx | | sx mx ex], y as [sy | sy | | sy my ey],
    z as [sz | sz | | sz mz ez]; simpl;
    try discriminate; try (destruct sx; discriminate);
    try (destruct sy; discriminate); try (destruct sz; discriminate);
    try (destruct sx, sy; discriminate); try (destruct sy, sz; discriminate);
    try (destruct sx, sy, sz; simpl; congruence).
  all: destruct sx, sy, sz; simpl; try congruence;
    change (Pos.compare_cont Eq ?a ?b) with (Pos.compare a b);
    repeat match goal with
    | |- context [Z.compare ?a ?b] => destruct (Z.compare_spec a b)
    | |- context [Pos.compare ?a ?b] => destruct (Pos.compare_spec a b)
    end; simpl; try congruence; try lia.
Qed.

Lemma ltb_leb_trans (x y z : float) :
  (x <? y) = true -> (y <=? z) = true -> (x <? z) = true.
Proof.
  rewrite !FloatAxioms.ltb_spec, FloatAxioms.leb_spec.
  apply SFltb_SFleb_trans.
Qed.

Lemma ltb_leb (x y : float) : (x <? y) = true -> (x <=? y) = true.
Proof.
  rewrite FloatAxioms.ltb_spec, FloatAxioms.leb_spec. unfold SFltb, SFleb.
  destruct (SFcompare (Prim2SF x) (Prim2SF y)) as [[] | ]; congruence.
Qed.

(** A value above [hi] is not at or below a bound [k] that is itself at
    or below [hi]. *)
Lemma above_not_leb (r hi k : float) :
  (hi <? r) = true -> (hi <? k) = false -> (r <=? k) = false.
Proof.
  intros Hr Hk. destruct (r <=? k) eqn:E; [ | reflexivity ].
  rewrite (ltb_leb_trans hi r k Hr E) in Hk. discriminate Hk.
Qed.

(** A value below [lo] is not above a bound [k] that is itself at or
    above [lo]. *)
Lemma below_not_ltb (r lo k : float) :
  (r <? lo) = true -> (k <? lo) = false -> (k <? r) = false.
Proof.
  intros Hr Hk. destruct (k <? r) eqn:E; [ | reflexivity ].
  rewrite (ltb_leb_trans k r lo E (ltb_leb r lo Hr)) in Hk. discriminate Hk.
Qed.

(** NaN, the one float that differs from itself, compares false with
    everything. *)
Lemma nan_compare (r k : float) :
  (r =? r) = false ->
  (r <=? k) = false /\ (k <=? r) = false /\ (r <? k) = false /\ (k <? r) = false.
Proof.
  rewrite FloatAxioms.eqb_spec, !FloatAxioms.leb_spec, !FloatAxioms.ltb_spec.
  unfold SFeqb, SFleb, SFltb. intros Hr.
  assert (Hnan : Prim2SF r = S754_nan).
  { destruct (Prim2SF r) as [s | s | | s m e]; simpl in Hr;
      try discriminate Hr; try reflexivity; try (destruct s; discriminate Hr).
    rewrite Z.compare_refl in Hr.
    change (Pos.compare_cont Eq m m) with (Pos.compare m m) in Hr.
    rewrite Pos.compare_refl in Hr. destruct s; discriminate Hr. }
  rewrite Hnan. destruct (Prim2SF k); repeat split; reflexivity.
Qed.

End FloatOrderMore.

(** ** The band tables *)

Section Bands.
Import TSL_LIGHT_X.
Local Open Scope float_scope.

(** The CS package's table above the second band, and outside every
    band: with [channel0] not zero, a ratio in [(0.65, 0.80]] takes the
    third formula, one in [(0.80, 1.30]] the fourth, and a ratio above
    [1.30], below zero or NaN gives the [int] 0. A ratio in [[0, 0.52]]
    takes the first formula. The bands exclude each other, so the order
    of the [elif] chain decides nothing. *)
Theorem cs_band_table `{Libm} (c0 c1 : num) (f0 f1 : float) :
  Py.float c0 = ok f0 -> Py.float c1 = ok f1 -> (f0 =? 0.0) = false ->
  let ratio := f1 / f0 in
  ((0 <=? ratio) = true -> (ratio <=? 0.52) = true ->
     TSL2561CS._calculate_lux c0 c1
     = ok (Flt (0.0315 * f0 - 0.0593 * f0 * pow ratio 1.4)))
  /\ ((0.65 <? ratio) = true -> (ratio <=? 0.80) = true ->
        TSL2561CS._calculate_lux c0 c1 = ok (Flt (0.0157 * f0 - 0.0180 * f1)))
  /\ ((0.80 <? ratio) = true -> (ratio <=? 1.30) = true ->
        TSL2561CS._calculate_lux c0 c1 = ok (Flt (0.00338 * f0 - 0.00260 * f1)))
  /\ ((1.30 <? ratio) = true \/ (ratio <? 0) = true \/ (ratio =? ratio) = false ->
        TSL2561CS._calculate_lux c0 c1 = ok (Int 0)).
Proof.
  intros Hc0 Hc1 Hnz ratio.
  unfold TSL2561CS._calculate_lux, Py.div_float, Py.fmul.
  rewrite Hc0, Hc1. simpl. rewrite Hnz. fold ratio.
  unfold res_bind, ok. cbv beta iota.
  split; [ | split; [ | split ] ].
  - intros H0 H1. rewrite H0, H1. reflexivity.
  - intros Hlo Hhi.
    rewrite (above_not_leb ratio 0.65 0.52 Hlo eq_refl), andb_false_r.
    rewrite (ltb_leb_false _ _ Hlo), andb_false_r.
    rewrite Hlo, Hhi. reflexivity.
  - intros Hlo Hhi.
    rewrite (above_not_leb ratio 0.80 0.52 Hlo eq_refl), andb_false_r.
    rewrite (above_not_leb ratio 0.80 0.65 Hlo eq_refl), andb_false_r.
    rewrite (ltb_leb_false _ _ Hlo), andb_false_r.
    rewrite Hlo, Hhi. reflexivity.
  - intros [Hhi | [Hneg | Hnan]].
    + rewrite (above_not_leb ratio 1.30 0.52 Hhi eq_refl), andb_false_r.
      rewrite (above_not_leb ratio 1.30 0.65 Hhi eq_refl), andb_false_r.
      rewrite (above_not_leb ratio 1.30 0.80 Hhi eq_refl), andb_false_r.
      rewrite (ltb_leb_false _ _ Hhi), andb_false_r. reflexivity.
    + rewrite (ltb_leb_false _ _ Hneg).
      rewrite (below_not_ltb ratio 0 0.52 Hneg eq_refl).
      rewrite (below_not_ltb ratio 0 0.65 Hneg eq_refl).
      rewrite (below_not_ltb ratio 0 0.80 Hneg eq_refl). reflexivity.
    + destruct (nan_compare ratio 0 Hnan) as (_ & -> & _ & _).
      destruct (nan_compare ratio 0.52 Hnan) as (_ & _ & _ & ->).
      destruct (nan_compare ratio 0.65 Hnan) as (_ & _ & _ & ->).
      destruct (nan_compare ratio 0.80 Hnan) as (_ & _ & _ & ->).
      reflexivity.
Qed.

Lemma cs_band_table_witness :
  @TSL2561CS._calculate_lux Sample.libm (Int 100) (Int 70)
  = ok (Flt (0.0157 * 100 - 0.0180 * 70))
  /\ @TSL2561CS._calculate_lux Sample.libm (Int 100) (Int 131) = ok (Int 0)
  /\ @TSL2561CS._calculate_lux Sample.libm (Int 100) (Flt nan) = ok (Int 0).
Proof.
  split; [ | split ].
  - apply (proj1 (proj2 (@cs_band_table Sample.libm (Int 100) (Int 70) 100 70
                    eq_refl eq_refl eq_refl)) eq_refl eq_refl).
  - apply (proj2 (proj2 (proj2 (@cs_band_table Sample.libm (Int 100) (Int 131)
                    100 131 eq_refl eq_refl eq_refl))) (or_introl eq_refl)).
  - apply (proj2 (proj2 (proj2 (@cs_band_table Sample.libm (Int 100) (Flt nan)
                    100 nan eq_refl eq_refl eq_refl)))
             (or_intror (or_intror eq_refl))).
Defined.

(** The T package's table, which the default class TSL2561 inherits:
    with [channel0] not zero, a ratio in [[0, 0.50]] takes the first
    formula, one in [(0.50, 0.61]] the second, one in [(0.61, 0.80]] the
    third, one in [(0.80, 1.30]] the fourth, and a ratio above [1.30],
    below zero or NaN gives the [int] 0. *)
Theorem t_band_table `{Libm} (c0 c1 : num) (f0 f1 : float) :
  Py.float c0 = ok f0 -> Py.float c1 = ok f1 -> (f0 =? 0.0) = false ->
  let ratio := f1 / f0 in
  ((0 <=? ratio) = true -> (ratio <=? 0.50) = true ->
     TSL2561._calculate_lux c0 c1
     = ok (Flt (0.0304 * f0 - 0.062 * f0 * pow ratio 1.4)))
  /\ ((0.50 <? ratio) = true -> (ratio <=? 0.61) = true ->
        TSL2561._calculate_lux c0 c1 = ok (Flt (0.0224 * f0 - 0.031 * f1)))
  /\ ((0.61 <? ratio) = true -> (ratio <=? 0.80) = true ->
        TSL2561._calculate_lux c0 c1 = ok (Flt (0.0128 * f0 - 0.0153 * f1)))
  /\ ((0.80 <? ratio) = true -> (ratio <=? 1.30) = true ->
        TSL2561._calculate_lux c0 c1 = ok (Flt (0.00146 * f0 - 0.00112 * f1)))
  /\ ((1.30 <? ratio) = true \/ (ratio <? 0) = true \/ (ratio =? ratio) = false ->
        TSL2561._calculate_lux c0 c1 = ok (Int 0)).
Proof.
  intros Hc0 Hc1 Hnz ratio.
  unfold TSL2561._calculate_lux, TSL2561T._calculate_lux, Py.div_float, Py.fmul.
  rewrite Hc0, Hc1. simpl. rewrite Hnz. fold ratio.
  unfold res_bind, ok. cbv beta iota.
  split; [ | split; [ | split; [ | split ] ] ].
  - intros H0 H1. rewrite H0, H1. reflexivity.
  - intros Hlo Hhi.
    rewrite (ltb_leb_false _ _ Hlo), andb_false_r.
    rewrite Hlo, Hhi. reflexivity.
  - intros Hlo Hhi.
    rewrite (above_not_leb ratio 0.61 0.50 Hlo eq_refl), andb_false_r.
    rewrite (ltb_leb_false _ _ Hlo), andb_false_r.
    rewrite Hlo, Hhi. reflexivity.
  - intros Hlo Hhi.
    rewrite (above_not_leb ratio 0.80 0.50 Hlo eq_refl), andb_false_r.
    rewrite (above_not_leb ratio 0.80 0.61 Hlo eq_refl), andb_false_r.
    rewrite (ltb_leb_false _ _ Hlo), andb_false_r.
    rewrite Hlo, Hhi. reflexivity.
  - intros [Hhi | [Hneg | Hnan]].
    + rewrite (above_not_leb ratio 1.30 0.50 Hhi eq_refl), andb_false_r.
      rewrite (above_not_leb ratio 1.30 0.61 Hhi eq_refl), andb_false_r.
      rewrite (above_not_leb ratio 1.30 0.80 Hhi eq_refl), andb_false_r.
      rewrite (ltb_leb_false _ _ Hhi), andb_false_r. reflexivity.
    + rewrite (ltb_leb_false _ _ Hneg).
      rewrite (below_not_ltb ratio 0 0.50 Hneg eq_refl).
      rewrite (below_not_ltb ratio 0 0.61 Hneg eq_refl).
      rewrite (below_not_ltb ratio 0 0.80 Hneg eq_refl). reflexivity.
    + destruct (nan_compare ratio 0 Hnan) as (_ & -> & _ & _).
      destruct (nan_compare ratio 0.50 Hnan) as (_ & _ & _ & ->).
      destruct (nan_compare ratio 0.61 Hnan) as (_ & _ & _ & ->).
      destruct (nan_compare ratio 0.80 Hnan) as (_ & _ & _ & ->).
      reflexivity.
Qed.

Lemma t_band_table_witness :
  @TSL2561._calculate_lux Sample.libm (Int 100) (Int 55)
  = ok (Flt (0.0224 * 100 - 0.031 * 55))
  /\ @TSL2561._calculate_lux Sample.libm (Int 100) (Int (-5)) = ok (Int 0).
Proof.
  split.
  - apply (proj1 (proj2 (@t_band_table Sample.libm (Int 100) (Int 55) 100 55
                    eq_refl eq_refl eq_refl)) eq_refl eq_refl).
  - apply (proj2 (proj2 (proj2 (proj2 (@t_band_table Sample.libm (Int 100)
                    (Int (-5)) 100 (-5) eq_refl eq_refl eq_refl))))
             (or_intror (or_introl eq_refl))).
Defined.

End Bands.

(** ** What [_calculate_lux] can return *)

Section Outcomes.
Import TSL_LIGHT_X.
Local Open Scope float_scope.

Lemma float_raises (x : num) (e : exn) :
  Py.float x = raise e -> e = OverflowError.
Proof.
  destruct x as [z | f]; simpl; [ | discriminate ].
  unfold Py.float_of_int.
  destruct (is_infinity _); [ | discriminate ].
  unfold raise. congruence.
Qed.

(** The shape of a call of either package's [_calculate_lux], once both
    conversions to float are known. *)
Ltac calc_cases c0 c1 :=
  unfold TSL2561._calculate_lux, TSL2561CS._calculate_lux,
    TSL2561T._calculate_lux, Py.div_float, Py.fmul;
  destruct (Py.float c0) as [? | g0] eqn:Hg0; simpl;
  [ | destruct (g0 =? 0) eqn:Hgz; simpl;
      [ | destruct (Py.float c1) as [? | g1] eqn:Hg1; simpl;
          [ | rewrite ?Hgz; simpl;
              repeat match goal with
              | |- context [if ?b then _ else _] => destruct b; simpl
              end ] ] ].

(** Once both channels convert to floats, either package returns, and
    what it returns is the [int] -1, the [int] 0 or a float. *)
Lemma calculate_lux_converted `{Libm} (c0 c1 : num) (f0 f1 : float) :
  Py.float c0 = ok f0 -> Py.float c1 = ok f1 ->
  (exists v, TSL2561CS._calculate_lux c0 c1 = ok v
     /\ (v = Int (-1) \/ v = Int 0 \/ exists f, v = Flt f))
  /\ (exists v, TSL2561._calculate_lux c0 c1 = ok v
        /\ (v = Int (-1) \/ v = Int 0 \/ exists f, v = Flt f)).
Proof.
  intros H0 H1.
  split; calc_cases c0 c1; try discriminate H0; try discriminate H1; eauto 6.
Qed.

(** What either package returns, when it returns, ['{0:.1f}'] can
    print. *)
Lemma calculate_lux_prints `{Libm} (c0 c1 : num) (v : num) :
  TSL2561CS._calculate_lux c0 c1 = ok v \/ TSL2561._calculate_lux c0 c1 = ok v ->
  exists r, Py.format_1f v = ok r.
Proof.
  intros [E | E]; revert E; calc_cases c0 c1; unfold ok, raise; intros E;
    try discriminate E; injection E as <-; eexists; reflexivity.
Qed.

(** [_calculate_lux] never divides by zero: for any two numbers, the only
    exception either package can raise is the [OverflowError] of
    converting an [int] beyond the doubles, and on two floats it always
    returns. What it returns is the [int] -1, the [int] 0 or a float. *)
Theorem calculate_lux_outcomes `{Libm} (c0 c1 : num) :
  (forall e, TSL2561CS._calculate_lux c0 c1 = raise e -> e = OverflowError)
  /\ (forall e, TSL2561._calculate_lux c0 c1 = raise e -> e = OverflowError)
  /\ (forall f0 f1, exists v,
        TSL2561CS._calculate_lux (Flt f0) (Flt f1) = ok v
        /\ (v = Int (-1) \/ v = Int 0 \/ exists f, v = Flt f))
  /\ (forall f0 f1, exists v,
        TSL2561._calculate_lux (Flt f0) (Flt f1) = ok v
        /\ (v = Int (-1) \/ v = Int 0 \/ exists f, v = Flt f)).
Proof.
  split; [ | split; [ | split ] ].
  - intros e. calc_cases c0 c1; unfold ok, raise; intros E;
      try discriminate E; injection E as <-;
      eauto using float_raises.
  - intros e. calc_cases c0 c1; unfold ok, raise; intros E;
      try discriminate E; injection E as <-;
      eauto using float_raises.
  - intros f0 f1. calc_cases (Flt f0) (Flt f1); try discriminate Hg0;
      try discriminate Hg1; eauto 6.
  - intros f0 f1. calc_cases (Flt f0) (Flt f1); try discriminate Hg0;
      try discriminate Hg1; eauto 6.
Qed.

(** The [int] sentinel comes from the guard alone: when [channel0]
    converts to the float [f0], either package returns the [int] -1
    exactly when [f0 == 0.0]. *)
Theorem calculate_lux_sentinel_iff `{Libm} (c0 c1 : num) (f0 : float) :
  Py.float c0 = ok f0 ->
  (TSL2561CS._calculate_lux c0 c1 = ok (Int VAL_INVALID) <-> (f0 =? 0.0) = true)
  /\ (TSL2561._calculate_lux c0 c1 = ok (Int VAL_INVALID) <-> (f0 =? 0.0) = true).
Proof.
  intros H0. split; split.
  1, 3: calc_cases c0 c1; unfold ok, raise; intros E;
    try discriminate E; try discriminate H0;
    injection H0 as <-; congruence.
  all: intros Hz; unfold TSL2561._calculate_lux, TSL2561CS._calculate_lux,
    TSL2561T._calculate_lux; rewrite H0; simpl; rewrite Hz; reflexivity.
Qed.

Lemma calculate_lux_sentinel_iff_witness :
  @TSL2561CS._calculate_lux Sample.libm (Int 100) (Int 131) <> ok (Int (-1)).
Proof.
  intros E.
  apply (proj1 (proj1 (@calculate_lux_sentinel_iff Sample.libm (Int 100)
                         (Int 131) 100 eq_refl))) in E.
  discriminate E.
Defined.

End Outcomes.

(** ** The simulated register file *)

Section RegisterFile.

(** [writeRegister] then [readRegister] at the same address returns the
    value written; a read at another address returns what it returned
    before the write; and of two writes to one address the last one
    stands. *)
Theorem register_write_then_read (d : device) (a a' v w : Z) :
  a' <> a ->
  (Bus.writeRegister a v ;; Bus.readRegister a) d
  = (ok (RInt v), snd (Bus.writeRegister a v d))
  /\ fst ((Bus.writeRegister a v ;; Bus.readRegister a') d)
     = fst (Bus.readRegister a' d)
  /\ snd ((Bus.writeRegister a v ;; Bus.writeRegister a w) d)
     = snd (Bus.writeRegister a w d).
Proof.
  intros Hne. run_method. rewrite lookup_insert_eq.
  rewrite lookup_insert_ne by congruence.
  split; [ reflexivity | split ].
  - destruct (registers d !! a'); reflexivity.
  - unfold set_registers. simpl. rewrite insert_insert_eq. reflexivity.
Qed.

Lemma register_write_then_read_witness :
  (Bus.writeRegister 0x81 0x12 ;; Bus.readRegister 0x81) TSL2561Test.fresh
  = (ok (RInt 0x12), snd (Bus.writeRegister 0x81 0x12 TSL2561Test.fresh)).
Proof.
  assert (Hne : 0x8C <> 0x81) by discriminate.
  exact (proj1 (register_write_then_read TSL2561Test.fresh 0x81 0x8C 0x12 0 Hne)).
Defined.

(** Reads of an address the dictionary does not hold: [readRegister]
    returns [0] and [readRegisters] returns [size] zero bytes, and either
    enters what it returned, so that the same read repeated returns the
    same and changes nothing more. An address first read with
    [readRegisters] therefore holds a [bytes] object, and that is what a
    later [readRegister] returns. *)
Theorem register_read_unseen (d : device) (a : Z) (size : nat) :
  registers d !! a = None ->
  (exists d1, Bus.readRegister a d = (ok (RInt 0), d1)
     /\ Bus.readRegister a d1 = (ok (RInt 0), d1))
  /\ (exists d1, Bus.readRegisters a size d = (ok (RBytes (replicate size 0)), d1)
        /\ Bus.readRegisters a size d1 = (ok (RBytes (replicate size 0)), d1)
        /\ Bus.readRegister a d1 = (ok (RBytes (replicate size 0)), d1)).
Proof.
  intros Hnone. unfold Bus.readRegister, Bus.readRegisters. rewrite Hnone.
  split; eexists; (split; [ reflexivity | ]); simpl;
    rewrite lookup_insert_eq; auto.
Qed.

Lemma register_read_unseen_witness :
  fst ((Bus.readRegisters 0x84 2 ;; Bus.readRegister 0x84) TSL2561Test.fresh)
  = ok (RBytes [0; 0]).
Proof.
  destruct (proj2 (register_read_unseen TSL2561Test.fresh 0x84 2 eq_refl))
    as (d1 & H1 & _ & H2).
  unfold bind. rewrite H1, H2. reflexivity.
Defined.

(** A block written with [writeRegisters] is what [readRegisters]
    returns afterwards, whatever [size] it is asked for, also one that is
    not the block's length; [readRegister] at that address returns the
    same [bytes] object, not an [int]. Neither read changes the
    dictionary. *)
Theorem register_block_round_trip (d : device) (a : Z) (bs : list Z)
    (size : nat) :
  (Bus.writeRegisters a bs ;; Bus.readRegisters a size) d
  = (ok (RBytes bs), snd (Bus.writeRegisters a bs d))
  /\ (Bus.writeRegisters a bs ;; Bus.readRegister a) d
     = (ok (RBytes bs), snd (Bus.writeRegisters a bs d)).
Proof.
  unfold Bus.writeRegisters. run_method. rewrite lookup_insert_eq.
  split; reflexivity.
Qed.

End RegisterFile.

(** ** Power control and construction *)

Section Lifecycle.
Import TSL_LIGHT_X.

Lemma config_byte_power (d : device) (v : Z) :
  config_byte (snd (Bus.writeRegister REG_CONTROL v d)) = config_byte d.
Proof.
  unfold config_byte. run_method.
  rewrite lookup_insert_ne by discriminate. reflexivity.
Qed.

Lemma getters_power (d : device) (v : Z) :
  fst (TSL2561X.get_time (snd (Bus.writeRegister REG_CONTROL v d)))
  = fst (TSL2561X.get_time d)
  /\ fst (TSL4531.get_time (snd (Bus.writeRegister REG_CONTROL v d)))
     = fst (TSL4531.get_time d)
  /\ fst (TSL2561X.get_gain (snd (Bus.writeRegister REG_CONTROL v d)))
     = fst (TSL2561X.get_gain d).
Proof.
  autounfold with tsl.
  unfold TSL2561X._get_time, TSL4531._get_time, TSL2561X.get_gain.
  run_method. rewrite lookup_insert_ne by discriminate.
  destruct (registers d !! REG_CONFIG) as [[b | bs] | ]; simpl;
    repeat split; try reflexivity;
    repeat case_match; reflexivity.
Qed.

(** [wake] leaves the power-on value [0x03] in the control register and
    [sleep] the power-off value [0x00], whichever came before. Neither
    touches an attribute, and [get_time] and [get_gain] answer after
    them what they answered before. *)
Theorem power_control (d : device) :
  registers (snd ((sleep ;; wake) d)) !! REG_CONTROL = Some (RInt 0x03)
  /\ registers (snd ((wake ;; sleep) d)) !! REG_CONTROL = Some (RInt 0x00)
  /\ (forall m, m = wake \/ m = sleep ->
        fst (m d) = ok tt
        /\ time_multiplier (snd (m d)) = time_multiplier d
        /\ gain_multiplier (snd (m d)) = gain_multiplier d
        /\ LUX_VALUE (snd (m d)) = LUX_VALUE d
        /\ fst (TSL2561X.get_time (snd (m d))) = fst (TSL2561X.get_time d)
        /\ fst (TSL4531.get_time (snd (m d))) = fst (TSL4531.get_time d)
        /\ fst (TSL2561X.get_gain (snd (m d))) = fst (TSL2561X.get_gain d)).
Proof.
  split; [ | split ].
  - unfold sleep, wake. run_method. apply lookup_insert_eq.
  - unfold sleep, wake. run_method. apply lookup_insert_eq.
  - intros m [-> | ->]; unfold wake, sleep;
      (split; [ reflexivity | ]); (do 3 (split; [ reflexivity | ]));
      apply getters_power.
Qed.

(** Construction of a TSL2561 with a supported time and gain, on a
    handle whose configuration register holds an [int] or was never
    written: [__init__] returns, the control register holds the power-on
    value, [get_time] and [get_gain] return the time and gain given, both
    multipliers are assigned, and no reading is cached that was not
    there. *)
Theorem init_2561 (d : device) (b t g : Z) :
  config_byte d = Some b -> In t [14; 101; 402] -> In g [1; 16] ->
  exists d',
    TSL2561X.__init__ t g d = (ok tt, d')
    /\ registers d' !! REG_CONTROL = Some (RInt VAL_PWON)
    /\ fst (TSL2561X.get_time d') = ok t
    /\ fst (TSL2561X.get_gain d') = ok g
    /\ is_Some (time_multiplier d')
    /\ is_Some (gain_multiplier d')
    /\ LUX_VALUE d' = LUX_VALUE d.
Proof.
  intros Hb Ht Hg.
  pose proof (config_byte_power d VAL_PWON) as Hw. rewrite Hb in Hw.
  destruct (_set_time_2561_run _ b t Hw Ht) as (bits & m & Hcase & Hrun).
  match type of Hrun with
  | _ = (_, ?d1) =>
      destruct (set_gain_run d1 _ g (config_byte_written _ _ _ _ _) Hg)
        as (bit & m' & Hcase' & Hrun')
  end.
  eexists. split.
  { unfold TSL2561X.__init__, TSL_LIGHT_X.__init__, TSL_LIGHT_X.set_time, wake.
    unfold bind at 1 2.
    rewrite (surjective_pairing (Bus.writeRegister REG_CONTROL VAL_PWON d)).
    change (fst (Bus.writeRegister REG_CONTROL VAL_PWON d)) with (@ok unit tt).
    unfold ok at 1. rewrite Hrun. exact Hrun'. }
  simpl. split; [ | split; [ | split; [ | split; [ | split ] ] ] ].
  - rewrite lookup_insert_ne by discriminate.
    rewrite lookup_insert_ne by discriminate. apply lookup_insert_eq.
  - unfold TSL2561X.get_time, TSL_LIGHT_X.get_time.
    rewrite (_get_time_2561_run _ _ (config_byte_written _ _ _ _ _)).
    destruct Hcase' as [(_ & -> & _) | (_ & -> & _)];
      rewrite field_frame_mask by reflexivity;
      destruct Hcase as [(-> & -> & _) | [(-> & -> & _) | (-> & -> & _)]];
      rewrite field_written by reflexivity; reflexivity.
  - rewrite (get_gain_run _ _ (config_byte_written _ _ _ _ _)).
    destruct Hcase' as [(-> & -> & _) | (-> & -> & _)];
      rewrite field_written by reflexivity; reflexivity.
  - eauto.
  - eauto.
  - reflexivity.
Qed.

Lemma init_2561_witness :
  fst ((TSL2561X.__init__ 14 16 ;; TSL2561X.get_time) Sample.foreign_config)
  = ok 14.
Proof.
  destruct (init_2561 Sample.foreign_config 0xFF 14 16 eq_refl)
    as (d' & Hrun & _ & Htime & _); [ simpl; tauto | simpl; tauto | ].
  unfold bind. rewrite Hrun. exact Htime.
Defined.

(** Construction that is refused. An unsupported time raises
    [ValueError] after the device was woken and before anything else
    happened. A supported time with an unsupported gain raises
    [ValueError] after the time was configured: the handle left behind
    is awake, reports that time, and has no gain multiplier it did not
    have before. *)
Theorem init_2561_refused (d : device) (b t g : Z) :
  config_byte d = Some b ->
  (~ In t [14; 101; 402] ->
     TSL2561X.__init__ t g d = (raise ValueError, snd (wake d)))
  /\ (In t [14; 101; 402] -> ~ In g [1; 16] ->
        exists d',
          TSL2561X.__init__ t g d = (raise ValueError, d')
          /\ registers d' !! REG_CONTROL = Some (RInt VAL_PWON)
          /\ fst (TSL2561X.get_time d') = ok t
          /\ is_Some (time_multiplier d')
          /\ gain_multiplier d' = gain_multiplier d).
Proof.
  intros Hb.
  pose proof (config_byte_power d VAL_PWON) as Hw. rewrite Hb in Hw.
  assert (Hinit :
            TSL2561X.__init__ t g d
            = match TSL2561X._set_time t
                      (snd (Bus.writeRegister REG_CONTROL VAL_PWON d)) with
              | (inl e, d1) => (inl e, d1)
              | (inr _, d1) => TSL2561X.set_gain g d1
              end) by reflexivity.
  rewrite Hinit. clear Hinit. split.
  - intros Ht. rewrite (_set_time_2561_refused _ t Ht). reflexivity.
  - intros Ht Hg.
    destruct (_set_time_2561_run _ b t Hw Ht) as (bits & m & Hcase & Hrun).
    rewrite Hrun. eexists. split.
    { apply set_gain_refused; intros ->; apply Hg; simpl; tauto. }
    simpl. split; [ | split; [ | split ] ].
    + rewrite lookup_insert_ne by discriminate. apply lookup_insert_eq.
    + unfold TSL2561X.get_time, TSL_LIGHT_X.get_time.
      rewrite (_get_time_2561_run _ _ (config_byte_written _ _ _ _ _)).
      destruct Hcase as [(-> & -> & _) | [(-> & -> & _) | (-> & -> & _)]];
        rewrite field_written by reflexivity; reflexivity.
    + eauto.
    + reflexivity.
Qed.

Lemma init_2561_refused_witness :
  TSL2561X.__init__ 100 1 TSL2561Test.fresh
  = (raise ValueError, snd (wake TSL2561Test.fresh))
  /\ fst (TSL2561X.__init__ 402 4 TSL2561Test.fresh) = raise ValueError.
Proof.
  split.
  - apply (proj1 (init_2561_refused TSL2561Test.fresh 0 100 1 eq_refl)).
    simpl. intros [H | [H | [H | []]]]; discriminate H.
  - destruct (proj2 (init_2561_refused TSL2561Test.fresh 0 402 4 eq_refl))
      as (d' & -> & _).
    + simpl. tauto.
    + simpl. intros [H | [H | []]]; discriminate H.
    + reflexivity.
Defined.

(** Construction of a TSL4531 (and of its four variants, which only
    change the default address): with a supported time [__init__]
    returns, the control register holds the power-on value, [get_time]
    returns the time given and the multiplier is assigned; with any other
    time it raises [ValueError] and has only woken the device. *)
Theorem init_4531 (d : device) (b t : Z) :
  config_byte d = Some b ->
  (In t [100; 200; 400] ->
     exists d',
       TSL4531.__init__ t d = (ok tt, d')
       /\ registers d' !! REG_CONTROL = Some (RInt VAL_PWON)
       /\ fst (TSL4531.get_time d') = ok t
       /\ is_Some (time_multiplier d'))
  /\ (~ In t [100; 200; 400] ->
        TSL4531.__init__ t d = (raise ValueError, snd (wake d))).
Proof.
  intros Hb.
  pose proof (config_byte_power d VAL_PWON) as Hw. rewrite Hb in Hw.
  assert (Hinit : TSL4531.__init__ t d
                  = TSL4531._set_time t
                      (snd (Bus.writeRegister REG_CONTROL VAL_PWON d)))
    by reflexivity.
  rewrite Hinit. clear Hinit. split.
  - intros Ht.
    destruct (_set_time_4531_run _ b t Hw Ht) as (bits & m & Hcase & Hrun).
    rewrite Hrun. eexists. split; [ reflexivity | ].
    simpl. split; [ | split ].
    + rewrite lookup_insert_ne by discriminate. apply lookup_insert_eq.
    + unfold TSL4531.get_time, TSL_LIGHT_X.get_time.
      rewrite (_get_time_4531_run _ _ (config_byte_written _ _ _ _ _)).
      destruct Hcase as [(-> & -> & _) | [(-> & -> & _) | (-> & -> & _)]];
        rewrite field_written by reflexivity; reflexivity.
    + eauto.
  - intros Ht. rewrite (_set_time_4531_refused _ t Ht). reflexivity.
Qed.

Lemma init_4531_witness :
  fst ((TSL4531.__init__ 400 ;; TSL4531.get_time) Sample.foreign_config)
  = ok 400.
Proof.
  destruct (proj1 (init_4531 Sample.foreign_config 0xFF 400 eq_refl))
    as (d' & Hrun & _ & Htime & _); [ simpl; tauto | ].
  unfold bind. rewrite Hrun. exact Htime.
Defined.

End Lifecycle.

(** ** Setters: refusal, failure, repetition and order *)

Section SettersMore.
Import TSL_LIGHT_X.

Lemma field_overwritten (b m v1 v2 : Z) :
  Z.land v1 m = v1 ->
  Z.lor (Z.land (Z.lor (Z.land b (Z.lnot m)) v1) (Z.lnot m)) v2
  = Z.lor (Z.land b (Z.lnot m)) v2.
Proof.
  intros H1. apply Z.bits_inj'. intros i Hi.
  rewrite !Z.lor_spec, !Z.land_spec, Z.lor_spec, Z.land_spec, !Z.lnot_spec
    by assumption.
  apply (f_equal (fun z => Z.testbit z i)) in H1. rewrite Z.land_spec in H1.
  destruct (Z.testbit b i), (Z.testbit m i), (Z.testbit v1 i), (Z.testbit v2 i);
    simpl in *; congruence.
Qed.

Lemma fields_commute (b m1 v1 m2 v2 : Z) :
  Z.land v1 m1 = v1 -> Z.land v2 m2 = v2 -> Z.land m1 m2 = 0 ->
  Z.lor (Z.land (Z.lor (Z.land b (Z.lnot m1)) v1) (Z.lnot m2)) v2
  = Z.lor (Z.land (Z.lor (Z.land b (Z.lnot m2)) v2) (Z.lnot m1)) v1.
Proof.
  intros H1 H2 H12. apply Z.bits_inj'. intros i Hi.
  rewrite !Z.lor_spec, !Z.land_spec, !Z.lor_spec, !Z.land_spec, !Z.lnot_spec
    by assumption.
  apply (f_equal (fun z => Z.testbit z i)) in H1, H2, H12.
  rewrite Z.land_spec in H1, H2, H12. rewrite Z.bits_0 in H12.
  destruct (Z.testbit b i), (Z.testbit m1 i), (Z.testbit v1 i),
    (Z.testbit m2 i), (Z.testbit v2 i); simpl in *; congruence.
Qed.

(** [set_time] with a time the chip family does not support raises
    [ValueError] and leaves the handle exactly as it was: no multiplier
    assigned, no register read or written. The supported times of one
    family are not those of the other. *)
Theorem set_time_refused (d : device) (t1 t2 : Z) :
  ~ In t1 [14; 101; 402] -> ~ In t2 [100; 200; 400] ->
  TSL2561X.set_time t1 d = (raise ValueError, d)
  /\ TSL4531.set_time t2 d = (raise ValueError, d).
Proof.
  intros H1 H2. split.
  - apply _set_time_2561_refused, H1.
  - apply _set_time_4531_refused, H2.
Qed.

Lemma set_time_refused_witness :
  TSL2561X.set_time 400 Sample.foreign_config
  = (raise ValueError, Sample.foreign_config)
  /\ TSL4531.set_time 402 Sample.foreign_config
     = (raise ValueError, Sample.foreign_config).
Proof.
  apply set_time_refused; simpl; intros [H | [H | [H | []]]]; discriminate H.
Defined.

(** A setter assigns its multiplier before it touches the bus. When the
    read-modify-write then fails, here with [TypeError] because the
    configuration entry is a [bytes] object, the register file is as it
    was but the handle already carries the new multiplier. *)
Theorem setter_fails_after_assignment (d : device) (t g : Z) :
  config_byte d = None -> In t [14; 101; 402] -> In g [1; 16] ->
  (exists d', TSL2561X.set_time t d = (raise TypeError, d')
     /\ registers d' = registers d
     /\ gain_multiplier d' = gain_multiplier d
     /\ ((t = 402 /\ time_multiplier d' = Some (Int 1))
         \/ (t = 101 /\ time_multiplier d' = Some (Flt (322 / 81)%float))
         \/ (t = 14 /\ time_multiplier d' = Some (Flt (322 / 11)%float))))
  /\ (exists d', TSL2561X.set_gain g d = (raise TypeError, d')
        /\ registers d' = registers d
        /\ time_multiplier d' = time_multiplier d
        /\ ((g = 1 /\ gain_multiplier d' = Some (Int 16))
            \/ (g = 16 /\ gain_multiplier d' = Some (Int 1)))).
Proof.
  unfold config_byte. intros Hb Ht Hg.
  destruct (registers d !! REG_CONFIG) as [[? | bs] | ] eqn:Hreg;
    try discriminate Hb.
  split.
  - destruct Ht as [<- | [<- | [<- | []]]];
      unfold TSL2561X.set_time, TSL2561X._set_time; run_method;
      rewrite Hreg; eexists; (split; [ reflexivity | ]); simpl; tauto.
  - destruct Hg as [<- | [<- | []]];
      unfold TSL2561X.set_gain; run_method;
      rewrite Hreg; eexists; (split; [ reflexivity | ]); simpl; tauto.
Qed.

Lemma setter_fails_after_assignment_witness :
  fst (TSL2561X.set_time 101 Cases.block_config) = raise TypeError
  /\ time_multiplier (snd (TSL2561X.set_time 101 Cases.block_config))
     = Some (Flt (322 / 81)%float).
Proof.
  destruct (proj1 (setter_fails_after_assignment Cases.block_config 101 1
                     eq_refl (or_intror (or_introl eq_refl))
                     (or_introl eq_refl)))
    as (d' & -> & _ & _ & [(H & _) | [(_ & H) | (H & _)]]);
    try discriminate H.
  split; [ reflexivity | exact H ].
Defined.

(** Setting the time twice leaves the handle that setting the second
    time alone leaves, on either chip family; so does setting the gain
    twice. *)
Theorem setter_last_wins (d : device) (b : Z) :
  config_byte d = Some b ->
  (forall t1 t2, In t1 [14; 101; 402] -> In t2 [14; 101; 402] ->
     (TSL2561X.set_time t1 ;; TSL2561X.set_time t2) d = TSL2561X.set_time t2 d)
  /\ (forall t1 t2, In t1 [100; 200; 400] -> In t2 [100; 200; 400] ->
        (TSL4531.set_time t1 ;; TSL4531.set_time t2) d = TSL4531.set_time t2 d)
  /\ (forall g1 g2, In g1 [1; 16] -> In g2 [1; 16] ->
        (TSL2561X.set_gain g1 ;; TSL2561X.set_gain g2) d = TSL2561X.set_gain g2 d).
Proof.
  intros Hb. split; [ | split ].
  - intros t1 t2 H1 H2.
    destruct (_set_time_2561_run d b t1 Hb H1) as (v1 & m1 & C1 & R1).
    destruct (_set_time_2561_run d b t2 Hb H2) as (v2 & m2 & C2 & R2).
    unfold bind, TSL2561X.set_time, TSL_LIGHT_X.set_time. rewrite R1, R2.
    unfold ok. cbv beta iota.
    match goal with
    | |- TSL2561X._set_time _ ?d1 = _ =>
        destruct (_set_time_2561_run d1 _ t2 (config_byte_written _ _ _ _ _) H2)
          as (v2' & m2' & C2' & R2')
    end.
    rewrite R2'. simpl. rewrite insert_insert_eq.
    assert (v2' = v2 /\ m2' = m2) as (-> & ->)
      by (destruct C2 as [(-> & -> & ->) | [(-> & -> & ->) | (-> & -> & ->)]];
          destruct C2' as [(E & -> & ->) | [(E & -> & ->) | (E & -> & ->)]];
          try discriminate E; split; reflexivity).
    rewrite field_overwritten; [ reflexivity | ].
    destruct C1 as [(_ & -> & _) | [(_ & -> & _) | (_ & -> & _)]]; reflexivity.
  - intros t1 t2 H1 H2.
    destruct (_set_time_4531_run d b t1 Hb H1) as (v1 & m1 & C1 & R1).
    destruct (_set_time_4531_run d b t2 Hb H2) as (v2 & m2 & C2 & R2).
    unfold bind, TSL4531.set_time, TSL_LIGHT_X.set_time. rewrite R1, R2.
    unfold ok. cbv beta iota.
    match goal with
    | |- TSL4531._set_time _ ?d1 = _ =>
        destruct (_set_time_4531_run d1 _ t2 (config_byte_written _ _ _ _ _) H2)
          as (v2' & m2' & C2' & R2')
    end.
    rewrite R2'. simpl. rewrite insert_insert_eq.
    assert (v2' = v2 /\ m2' = m2) as (-> & ->)
      by (destruct C2 as [(-> & -> & ->) | [(-> & -> & ->) | (-> & -> & ->)]];
          destruct C2' as [(E & -> & ->) | [(E & -> & ->) | (E & -> & ->)]];
          try discriminate E; split; reflexivity).
    rewrite field_overwritten; [ reflexivity | ].
    destruct C1 as [(_ & -> & _) | [(_ & -> & _) | (_ & -> & _)]]; reflexivity.
  - intros g1 g2 H1 H2.
    destruct (set_gain_run d b g1 Hb H1) as (v1 & m1 & C1 & R1).
    destruct (set_gain_run d b g2 Hb H2) as (v2 & m2 & C2 & R2).
    unfold bind. rewrite R1, R2. unfold ok. cbv beta iota.
    match goal with
    | |- TSL2561X.set_gain _ ?d1 = _ =>
        destruct (set_gain_run d1 _ g2 (config_byte_written _ _ _ _ _) H2)
          as (v2' & m2' & C2' & R2')
    end.
    rewrite R2'. simpl. rewrite insert_insert_eq.
    assert (v2' = v2 /\ m2' = m2) as (-> & ->)
      by (destruct C2 as [(-> & -> & ->) | (-> & -> & ->)];
          destruct C2' as [(E & -> & ->) | (E & -> & ->)];
          try discriminate E; split; reflexivity).
    rewrite field_overwritten; [ reflexivity | ].
    destruct C1 as [(_ & -> & _) | (_ & -> & _)]; reflexivity.
Qed.

Lemma setter_last_wins_witness :
  (TSL2561X.set_time 14 ;; TSL2561X.set_time 402) Sample.foreign_config
  = TSL2561X.set_time 402 Sample.foreign_config.
Proof.
  apply (proj1 (setter_last_wins Sample.foreign_config 0xFF eq_refl));
    simpl; tauto.
Defined.

(** The two settings of a TSL2561 do not depend on each other:
    [set_time] then [set_gain] leaves the same handle as [set_gain] then
    [set_time]. *)
Theorem set_time_set_gain_commute (d : device) (b t g : Z) :
  config_byte d = Some b -> In t [14; 101; 402] -> In g [1; 16] ->
  (TSL2561X.set_time t ;; TSL2561X.set_gain g) d
  = (TSL2561X.set_gain g ;; TSL2561X.set_time t) d.
Proof.
  intros Hb Ht Hg.
  destruct (_set_time_2561_run d b t Hb Ht) as (vt & mt & Ct & Rt).
  destruct (set_gain_run d b g Hb Hg) as (vg & mg & Cg & Rg).
  unfold bind, TSL2561X.set_time, TSL_LIGHT_X.set_time. rewrite Rt, Rg.
  unfold ok. cbv beta iota.
  match goal with
  | |- TSL2561X.set_gain _ ?d1 = TSL2561X._set_time _ ?d2 =>
      destruct (set_gain_run d1 _ g (config_byte_written _ _ _ _ _) Hg)
        as (vg' & mg' & Cg' & Rg');
      destruct (_set_time_2561_run d2 _ t (config_byte_written _ _ _ _ _) Ht)
        as (vt' & mt' & Ct' & Rt')
  end.
  rewrite Rg', Rt'. simpl. rewrite !insert_insert_eq.
  assert (vt' = vt /\ mt' = mt) as (-> & ->)
    by (destruct Ct as [(-> & -> & ->) | [(-> & -> & ->) | (-> & -> & ->)]];
        destruct Ct' as [(E & -> & ->) | [(E & -> & ->) | (E & -> & ->)]];
        try discriminate E; split; reflexivity).
  assert (vg' = vg /\ mg' = mg) as (-> & ->)
    by (destruct Cg as [(-> & -> & ->) | (-> & -> & ->)];
        destruct Cg' as [(E & -> & ->) | (E & -> & ->)];
        try discriminate E; split; reflexivity).
  rewrite (fields_commute b 3 vt 16 vg); [ reflexivity | | | reflexivity ].
  - destruct Ct as [(_ & -> & _) | [(_ & -> & _) | (_ & -> & _)]]; reflexivity.
  - destruct Cg as [(_ & -> & _) | (_ & -> & _)]; reflexivity.
Qed.

Lemma set_time_set_gain_commute_witness :
  (TSL2561X.set_time 101 ;; TSL2561X.set_gain 16) Sample.foreign_config
  = (TSL2561X.set_gain 16 ;; TSL2561X.set_time 101) Sample.foreign_config.
Proof.
  apply (set_time_set_gain_commute Sample.foreign_config 0xFF 101 16 eq_refl);
    simpl; tauto.
Defined.

End SettersMore.

(** ** Reading: words, conversions and what [get_lux] leaves behind *)

Section ReadingMore.
Import TSL_LIGHT_X.

Lemma all_from_spec (p : Z -> bool) (n : nat) (z : Z) :
  all_from n z p = true -> forall k, z <= k < z + Z.of_nat n -> p k = true.
Proof.
  revert z. induction n as [ | n IH]; intros z Hall k Hk; [ lia | ].
  simpl in Hall. apply andb_true_iff in Hall as (Hz & Hrest).
  destruct (Z.eq_dec k z) as [-> | Hne]; [ exact Hz | ].
  apply (IH (z + 1) Hrest). lia.
Qed.

(** The little-endian word of two bytes. *)
Lemma word_of_bytes (lo hi : Z) :
  0 <= lo < 256 -> 0 <= hi < 256 ->
  Z.lor (Z.shiftl hi 8) lo = 256 * hi + lo
  /\ 0 <= Z.lor (Z.shiftl hi 8) lo < 65536.
Proof.
  intros Hlo Hhi.
  assert (Hdisj : Z.land (Z.shiftl hi 8) lo = 0).
  { apply Z.bits_inj'. intros i Hi. rewrite Z.land_spec, Z.bits_0.
    destruct (Z.lt_ge_cases i 8) as [Hlt | Hge].
    - rewrite Z.shiftl_spec_low by assumption. reflexivity.
    - rewrite <- (Z.mod_small lo (2 ^ 8)) by (change (2 ^ 8) with 256; lia).
      rewrite Z.mod_pow2_bits_high by lia. apply andb_false_r. }
  assert (Hword : Z.lor (Z.shiftl hi 8) lo = 256 * hi + lo).
  { rewrite <- Z.lxor_lor by assumption.
    rewrite <- Z.add_nocarry_lxor by assumption.
    rewrite Z.shiftl_mul_pow2 by lia. change (2 ^ 8) with 256. lia. }
  rewrite Hword. lia.
Qed.

(** Every scaled channel word converts to a float: the words below
    65536, and their sixteenfold. *)
Lemma word_converts (w : Z) :
  0 <= w < 65536 ->
  (exists f, Py.float_of_int w = ok f)
  /\ (exists f, Py.float_of_int (16 * w) = ok f).
Proof.
  intros Hw.
  assert (Hall : all_from (Z.to_nat 65536) 0
                   (fun z => returns (Py.float_of_int z)
                             && returns (Py.float_of_int (16 * z))) = true)
    by (vm_compute; reflexivity).
  pose proof (all_from_spec _ _ _ Hall w) as H. cbv beta in H.
  rewrite Z2Nat.id in H by lia.
  apply andb_true_iff in H as (H1 & H16); [ | lia ].
  split.
  - destruct (Py.float_of_int w); [ discriminate H1 | eauto ].
  - destruct (Py.float_of_int (16 * w)); [ discriminate H16 | eauto ].
Qed.

(** [get_lux_value] on a handle that holds both channel registers and
    both multipliers: the scaling of the two words, then the formula. *)
Lemma get_lux_value_run (calc : num -> num -> res num) (d : device)
    (lo0 hi0 lo1 hi1 : Z) (r0 r1 : list Z) (tm gm : num) :
  registers d !! TSL2561X.REG_CHANNEL_0_LOW = Some (RBytes (lo0 :: hi0 :: r0)) ->
  registers d !! TSL2561X.REG_CHANNEL_1_LOW = Some (RBytes (lo1 :: hi1 :: r1)) ->
  time_multiplier d = Some tm -> gain_multiplier d = Some gm ->
  TSL2561X.get_lux_value calc d
  = ((scaling <-? Py.mul tm gm ;;
      c0 <-? Py.mul scaling (Int (Z.lor (Z.shiftl hi0 8) lo0)) ;;
      c1 <-? Py.mul scaling (Int (Z.lor (Z.shiftl hi1 8) lo1)) ;;
      calc c0 c1)%res, d).
Proof.
  intros H0 H1 Htm Hgm. unfold TSL2561X.get_lux_value. run_method.
  rewrite H0. simpl. rewrite H1. simpl. rewrite Htm. simpl. rewrite Hgm.
  destruct (Py.mul tm gm) as [? | scaling]; [ reflexivity | ].
  destruct (Py.mul scaling _) as [? | c0]; [ reflexivity | ].
  destruct (Py.mul scaling _) as [? | c1]; [ reflexivity | ].
  destruct (calc c0 c1); reflexivity.
Qed.

(** The scaled value of a channel word, for the multipliers the setters
    assign: it is a number that converts to a float. *)
Lemma scaled_word_converts (tm gm : num) (w : Z) :
  In tm [Int 1; Flt (322 / 81)%float; Flt (322 / 11)%float] ->
  In gm [Int 16; Int 1] -> 0 <= w < 65536 ->
  exists scaling c f,
    Py.mul tm gm = ok scaling /\ Py.mul scaling (Int w) = ok c
    /\ Py.float c = ok f.
Proof.
  intros Htm Hgm Hw. destruct (word_converts w Hw) as ((f1 & E1) & (f16 & E16)).
  assert (Hflt : forall s : float,
            exists c f, Py.mul (Flt s) (Int w) = ok c /\ Py.float c = ok f).
  { intros s. exists (Flt (s * f1)%float), (s * f1)%float.
    unfold Py.mul, Py.float. rewrite E1. split; reflexivity. }
  destruct Htm as [<- | [<- | [<- | []]]], Hgm as [<- | [<- | []]].
  - exists (Int 16), (Int (16 * w)), f16. repeat split; assumption || reflexivity.
  - exists (Int 1), (Int (1 * w)), f1. rewrite Z.mul_1_l.
    repeat split; try assumption. simpl. rewrite Z.mul_1_l. reflexivity.
  - destruct (Hflt (322 / 81 * 16)%float) as (c & f & Hc & Hf).
    exists (Flt (322 / 81 * 16)%float), c, f. repeat split; assumption || reflexivity.
  - destruct (Hflt (322 / 81 * 1)%float) as (c & f & Hc & Hf).
    exists (Flt (322 / 81 * 1)%float), c, f. repeat split; assumption || reflexivity.
  - destruct (Hflt (322 / 11 * 16)%float) as (c & f & Hc & Hf).
    exists (Flt (322 / 11 * 16)%float), c, f. repeat split; assumption || reflexivity.
  - destruct (Hflt (322 / 11 * 1)%float) as (c & f & Hc & Hf).
    exists (Flt (322 / 11 * 1)%float), c, f. repeat split; assumption || reflexivity.
Qed.

(** [get_lux], for any formula that returns the [int] -1, the [int] 0 or
    a float on inputs that convert to floats. *)
Lemma get_lux_returns_for (calc : num -> num -> res num) (d : device)
    (lo0 hi0 lo1 hi1 : Z) (r0 r1 : list Z) (tm gm : num) :
  (forall c0 c1 f0 f1, Py.float c0 = ok f0 -> Py.float c1 = ok f1 ->
     exists v, calc c0 c1 = ok v
       /\ (v = Int (-1) \/ v = Int 0 \/ exists f, v = Flt f)) ->
  registers d !! TSL2561X.REG_CHANNEL_0_LOW = Some (RBytes (lo0 :: hi0 :: r0)) ->
  registers d !! TSL2561X.REG_CHANNEL_1_LOW = Some (RBytes (lo1 :: hi1 :: r1)) ->
  0 <= lo0 < 256 -> 0 <= hi0 < 256 -> 0 <= lo1 < 256 -> 0 <= hi1 < 256 ->
  time_multiplier d = Some tm -> gain_multiplier d = Some gm ->
  In tm [Int 1; Flt (322 / 81)%float; Flt (322 / 11)%float] ->
  In gm [Int 16; Int 1] ->
  returns (Py.format_1f (self_LUX_VALUE d)) = true ->
  exists r d',
    TSL2561X.get_lux calc d = (ok (r, "lum"%string, "lux"%string), d')
    /\ registers d' = registers d
    /\ time_multiplier d' = time_multiplier d
    /\ gain_multiplier d' = gain_multiplier d
    /\ returns (Py.format_1f (self_LUX_VALUE d')) = true.
Proof.
  intros Hcalc H0 H1 Hlo0 Hhi0 Hlo1 Hhi1 Htm Hgm Htm' Hgm' Hcache.
  destruct (scaled_word_converts tm gm _ Htm' Hgm'
              (proj2 (word_of_bytes lo0 hi0 Hlo0 Hhi0)))
    as (scaling & c0 & f0 & Hs & Hc0 & Hf0).
  destruct (scaled_word_converts tm gm _ Htm' Hgm'
              (proj2 (word_of_bytes lo1 hi1 Hlo1 Hhi1)))
    as (scaling' & c1 & f1 & Hs' & Hc1 & Hf1).
  rewrite Hs in Hs'. injection Hs' as <-.
  destruct (Hcalc c0 c1 f0 f1 Hf0 Hf1) as (v & Hv & Hshape).
  rewrite get_lux_unfold.
  rewrite (get_lux_value_run calc d _ _ _ _ _ _ _ _ H0 H1 Htm Hgm).
  rewrite Hs. simpl. rewrite Hc0. simpl. rewrite Hc1. simpl. rewrite Hv.
  unfold ok. cbv beta iota zeta.
  destruct (Py.neqb v (Int VAL_INVALID)) eqn:Hne.
  - assert (Hfmt : exists r, Py.format_1f v = inr r).
    { destruct Hshape as [-> | [-> | (f & ->)]]; eexists; reflexivity. }
    destruct Hfmt as (r & Hr). exists r, (set_LUX_VALUE v d).
    change (self_LUX_VALUE (set_LUX_VALUE v d)) with v.
    rewrite Hr. repeat split; reflexivity.
  - destruct (Py.format_1f (self_LUX_VALUE d)) as [? | r] eqn:Hr;
      [ discriminate Hcache | ].
    exists r, d. rewrite Hr. repeat split; reflexivity.
Qed.

(** On a configured TSL2561 (multipliers as the setters assign them)
    whose two channel registers hold at least two bytes each, [get_lux] of
    the CS package and of the default class returns a report: no
    exception. It changes no register and no multiplier, and the handle
    it leaves satisfies the same conditions, so the next call returns as
    well. The cache it starts from is the initial one or an earlier
    reading, that is one that ['{0:.1f}'] can print. *)
Theorem get_lux_returns `{Libm} (d : device)
    (lo0 hi0 lo1 hi1 : Z) (r0 r1 : list Z) (tm gm : num) :
  registers d !! TSL2561X.REG_CHANNEL_0_LOW = Some (RBytes (lo0 :: hi0 :: r0)) ->
  registers d !! TSL2561X.REG_CHANNEL_1_LOW = Some (RBytes (lo1 :: hi1 :: r1)) ->
  0 <= lo0 < 256 -> 0 <= hi0 < 256 -> 0 <= lo1 < 256 -> 0 <= hi1 < 256 ->
  time_multiplier d = Some tm -> gain_multiplier d = Some gm ->
  In tm [Int 1; Flt (322 / 81)%float; Flt (322 / 11)%float] ->
  In gm [Int 16; Int 1] ->
  returns (Py.format_1f (self_LUX_VALUE d)) = true ->
  (exists r d',
     TSL2561CS.get_lux d = (ok (r, "lum"%string, "lux"%string), d')
     /\ registers d' = registers d
     /\ time_multiplier d' = time_multiplier d
     /\ gain_multiplier d' = gain_multiplier d
     /\ returns (Py.format_1f (self_LUX_VALUE d')) = true)
  /\ (exists r d',
        TSL2561.get_lux d = (ok (r, "lum"%string, "lux"%string), d')
        /\ registers d' = registers d
        /\ time_multiplier d' = time_multiplier d
        /\ gain_multiplier d' = gain_multiplier d
        /\ returns (Py.format_1f (self_LUX_VALUE d')) = true).
Proof.
  intros. split; eapply get_lux_returns_for; eauto;
    intros c0 c1 f0 f1 Hf0 Hf1;
    apply (calculate_lux_converted c0 c1 f0 f1 Hf0 Hf1).
Qed.

Lemma get_lux_returns_witness :
  exists r d',
    TSL2561.get_lux (H := Sample.libm) Sample.band_edge
    = (ok (r, "lum"%string, "lux"%string), d')
    /\ registers d' = registers Sample.band_edge.
Proof.
  assert (B1 : 0 <= 0x9E < 256) by lia.
  assert (B2 : 0 <= 0x25 < 256) by lia.
  assert (B3 : 0 <= 0xE7 < 256) by lia.
  assert (B4 : 0 <= 0x30 < 256) by lia.
  destruct (proj2 (@get_lux_returns Sample.libm Sample.band_edge
                     0x9E 0x25 0xE7 0x30 [] []
                     (Flt (322 / 81)%float) (Int 16)
                     eq_refl eq_refl B1 B2 B3 B4 eq_refl eq_refl
                     (or_intror (or_introl eq_refl)) (or_introl eq_refl)
                     eq_refl))
    as (r & d' & Hrun & Hregs & _).
  exists r, d'. split; assumption.
Defined.

End ReadingMore.

(** ** Reading twice, and reading that fails *)

Section Repeat.
Import TSL_LIGHT_X.

(** Case analysis on the statements of [get_lux] after the bus reads. *)
(** Two register addresses, given by their constants, differ. *)
Ltac addr_ne := let E := fresh in intros E; vm_compute in E; discriminate E.

Ltac reduce_run :=
  cbv beta iota;
  cbn [registers time_multiplier gain_multiplier LUX_VALUE set_registers
       fst snd].

Ltac tail_cases :=
  reduce_run;
  repeat (match goal with
  | |- context [match ?x with RInt _ => _ | RBytes _ => _ end] =>
      destruct x
  | |- context [match ?l !! ?i with Some _ => _ | None => _ end] =>
      destruct (l !! i)
  | |- context [match ?o with Some _ => _ | None => _ end] =>
      is_var o; destruct o
  | |- context [match Py.mul ?a ?b with inl _ => _ | inr _ => _ end] =>
      destruct (Py.mul a b)
  | |- context [match ?c ?a ?b with inl _ => _ | inr _ => _ end] =>
      is_var c; destruct (c a b)
  end; reduce_run).

(** With both channel registers in the dictionary, [get_lux_value]
    leaves the handle as it is, and what it returns depends on the two
    entries and the two multipliers only. *)
Lemma get_lux_value_present (calc : num -> num -> res num) (d : device)
    (v0 v1 : regval) :
  registers d !! TSL2561X.REG_CHANNEL_0_LOW = Some v0 ->
  registers d !! TSL2561X.REG_CHANNEL_1_LOW = Some v1 ->
  TSL2561X.get_lux_value calc d
  = (fst (TSL2561X.get_lux_value calc
            (mkDevice (<[TSL2561X.REG_CHANNEL_0_LOW := v0]>
                         (<[TSL2561X.REG_CHANNEL_1_LOW := v1]> ∅))
               (time_multiplier d) (gain_multiplier d) None)), d).
Proof.
  destruct d as [regs tm gm lv]. cbn [registers time_multiplier gain_multiplier].
  intros H0 H1. unfold TSL2561X.get_lux_value. autounfold with tsl.
  reduce_run. rewrite H0, lookup_insert_eq. reduce_run.
  rewrite H1. rewrite lookup_insert_ne by discriminate.
  rewrite lookup_insert_eq. tail_cases; reflexivity.
Qed.

(** The two bus reads of [get_lux_value] enter the channel registers
    the dictionary lacks and change nothing else; computing on the handle
    they leave gives what computing on the original gives. *)
Lemma get_lux_value_settles (calc : num -> num -> res num) (d : device) :
  exists d1 v0 v1,
    TSL2561X.get_lux_value calc d = TSL2561X.get_lux_value calc d1
    /\ registers d1 !! TSL2561X.REG_CHANNEL_0_LOW = Some v0
    /\ registers d1 !! TSL2561X.REG_CHANNEL_1_LOW = Some v1
    /\ time_multiplier d1 = time_multiplier d
    /\ gain_multiplier d1 = gain_multiplier d
    /\ LUX_VALUE d1 = LUX_VALUE d
    /\ (forall a v, registers d !! a = Some v -> registers d1 !! a = Some v).
Proof.
  destruct d as [regs tm gm lv].
  destruct (regs !! TSL2561X.REG_CHANNEL_0_LOW) as [v0 | ] eqn:H0;
    destruct (regs !! TSL2561X.REG_CHANNEL_1_LOW) as [v1 | ] eqn:H1.
  - exists (mkDevice regs tm gm lv), v0, v1. repeat split; auto.
  - exists (mkDevice (<[TSL2561X.REG_CHANNEL_1_LOW := RBytes [0; 0]]> regs)
              tm gm lv), v0, (RBytes [0; 0]).
    split; [ | cbn [registers]; repeat split; auto ].
    + unfold TSL2561X.get_lux_value. autounfold with tsl. reduce_run.
      rewrite H0. reduce_run. rewrite H1. reduce_run.
      rewrite (lookup_insert_ne _ TSL2561X.REG_CHANNEL_1_LOW TSL2561X.REG_CHANNEL_0_LOW) by addr_ne. rewrite H0. reduce_run.
      rewrite lookup_insert_eq. reflexivity.
    + rewrite (lookup_insert_ne _ TSL2561X.REG_CHANNEL_1_LOW TSL2561X.REG_CHANNEL_0_LOW) by addr_ne. exact H0.
    + apply lookup_insert_eq.
    + intros a v Ha. destruct (decide (a = TSL2561X.REG_CHANNEL_1_LOW)) as [-> | Hne];
        [ congruence | rewrite lookup_insert_ne by congruence; exact Ha ].
  - exists (mkDevice (<[TSL2561X.REG_CHANNEL_0_LOW := RBytes [0; 0]]> regs)
              tm gm lv), (RBytes [0; 0]), v1.
    split; [ | cbn [registers]; repeat split; auto ].
    + unfold TSL2561X.get_lux_value. autounfold with tsl. reduce_run.
      rewrite H0. reduce_run. rewrite (lookup_insert_ne _ TSL2561X.REG_CHANNEL_0_LOW TSL2561X.REG_CHANNEL_1_LOW) by addr_ne.
      rewrite H1. reduce_run. rewrite lookup_insert_eq. reduce_run.
      rewrite (lookup_insert_ne _ TSL2561X.REG_CHANNEL_0_LOW TSL2561X.REG_CHANNEL_1_LOW) by addr_ne. rewrite H1. reflexivity.
    + apply lookup_insert_eq.
    + rewrite (lookup_insert_ne _ TSL2561X.REG_CHANNEL_0_LOW TSL2561X.REG_CHANNEL_1_LOW) by addr_ne. exact H1.
    + intros a v Ha. destruct (decide (a = TSL2561X.REG_CHANNEL_0_LOW)) as [-> | Hne];
        [ congruence | rewrite lookup_insert_ne by congruence; exact Ha ].
  - exists (mkDevice (<[TSL2561X.REG_CHANNEL_1_LOW := RBytes [0; 0]]>
                       (<[TSL2561X.REG_CHANNEL_0_LOW := RBytes [0; 0]]> regs))
              tm gm lv), (RBytes [0; 0]), (RBytes [0; 0]).
    split; [ | cbn [registers]; repeat split; auto ].
    + unfold TSL2561X.get_lux_value. autounfold with tsl. reduce_run.
      rewrite H0. reduce_run. rewrite (lookup_insert_ne _ TSL2561X.REG_CHANNEL_0_LOW TSL2561X.REG_CHANNEL_1_LOW) by addr_ne.
      rewrite H1. reduce_run.
      rewrite (lookup_insert_ne _ TSL2561X.REG_CHANNEL_1_LOW TSL2561X.REG_CHANNEL_0_LOW) by addr_ne. rewrite lookup_insert_eq.
      reduce_run. rewrite lookup_insert_eq. reflexivity.
    + rewrite (lookup_insert_ne _ TSL2561X.REG_CHANNEL_1_LOW TSL2561X.REG_CHANNEL_0_LOW) by addr_ne. apply lookup_insert_eq.
    + apply lookup_insert_eq.
    + intros a v Ha.
      destruct (decide (a = TSL2561X.REG_CHANNEL_1_LOW)) as [-> | Hne];
        [ congruence | rewrite lookup_insert_ne by congruence ].
      destruct (decide (a = TSL2561X.REG_CHANNEL_0_LOW)) as [-> | Hne'];
        [ congruence | rewrite lookup_insert_ne by congruence; exact Ha ].
Qed.

(** A reading is repeatable: when [get_lux] has returned a report,
    calling it again on the handle it left, with the bus unchanged,
    returns the same report and leaves that handle as it is. This holds
    for any formula. *)
Theorem get_lux_repeatable (calc : num -> num -> res num) (d d' : device)
    (r : float * string * string) :
  TSL2561X.get_lux calc d = (ok r, d') ->
  TSL2561X.get_lux calc d' = (ok r, d').
Proof.
  destruct (get_lux_value_settles calc d)
    as (d1 & v0 & v1 & Heq & H0 & H1 & _).
  rewrite (get_lux_unfold calc d), Heq.
  rewrite (get_lux_value_present calc d1 v0 v1 H0 H1).
  destruct (fst (TSL2561X.get_lux_value calc _)) as [e | v] eqn:HX;
    [ discriminate | ].
  cbv beta iota zeta. intros Hrun.
  assert (Hd' : d' = if Py.neqb v (Int VAL_INVALID)
                     then set_LUX_VALUE v d1 else d1)
    by (injection Hrun; auto).
  rewrite <- Hd' in Hrun.
  assert (Hagain : TSL2561X.get_lux_value calc d' = (inr v, d')).
  { rewrite (get_lux_value_present calc d' v0 v1).
    - replace (time_multiplier d') with (time_multiplier d1)
        by (rewrite Hd'; destruct (Py.neqb _ _); reflexivity).
      replace (gain_multiplier d') with (gain_multiplier d1)
        by (rewrite Hd'; destruct (Py.neqb _ _); reflexivity).
      rewrite HX. reflexivity.
    - rewrite Hd'. destruct (Py.neqb _ _); exact H0.
    - rewrite Hd'. destruct (Py.neqb _ _); exact H1. }
  rewrite (get_lux_unfold calc d'), Hagain. cbv beta iota zeta.
  assert (Hfix : (if Py.neqb v (Int VAL_INVALID)
                  then set_LUX_VALUE v d' else d') = d').
  { destruct (Py.neqb v (Int VAL_INVALID)); [ | reflexivity ].
    rewrite Hd'. reflexivity. }
  rewrite Hfix. injection Hrun as ->. reflexivity.
Qed.

Lemma get_lux_repeatable_witness :
  TSL2561CS.get_lux (H := Sample.libm)
    (snd (TSL2561CS.get_lux (H := Sample.libm) Sample.band_edge))
  = (ok (neg_zero, "lum"%string, "lux"%string),
     snd (TSL2561CS.get_lux (H := Sample.libm) Sample.band_edge)).
Proof.
  apply (get_lux_repeatable (@TSL2561CS._calculate_lux Sample.libm)
           Sample.band_edge).
  reflexivity.
Defined.

(** A value [get_lux_value] returns is a value the formula returned. *)
Lemma get_lux_value_from_formula (calc : num -> num -> res num)
    (d d1 : device) (v : num) :
  TSL2561X.get_lux_value calc d = (ok v, d1) ->
  exists c0 c1, calc c0 c1 = ok v.
Proof.
  destruct (get_lux_value_settles calc d)
    as (d0 & v0 & v1 & -> & H0 & H1 & _).
  destruct d0 as [regs tm gm lv].
  cbn [registers] in H0, H1.
  unfold TSL2561X.get_lux_value. autounfold with tsl. reduce_run.
  rewrite H0. reduce_run. rewrite H1.
  tail_cases; intros E; try discriminate E.
  match goal with
  | E : (calc ?a ?b, _) = _ |- _ => exists a, b; injection E as -> _
  end.
  reflexivity.
Qed.

(** What [get_lux] leaves behind, for a formula whose values
    ['{0:.1f}'] can print. *)
Lemma get_lux_leaves_for (calc : num -> num -> res num) (d d' : device)
    (out : res (float * string * string)) :
  (forall c0 c1 v, calc c0 c1 = ok v -> exists r, Py.format_1f v = ok r) ->
  TSL2561X.get_lux calc d = (out, d') ->
  time_multiplier d' = time_multiplier d
  /\ gain_multiplier d' = gain_multiplier d
  /\ (forall a v, registers d !! a = Some v -> registers d' !! a = Some v)
  /\ (forall e, out = raise e -> LUX_VALUE d' = LUX_VALUE d).
Proof.
  intros Hprint.
  destruct (get_lux_value_settles calc d)
    as (d1 & v0 & v1 & Heq & H0 & H1 & Htm & Hgm & Hlv & Hregs).
  assert (Hvalue : TSL2561X.get_lux_value calc d
                   = (fst (TSL2561X.get_lux_value calc d), d1))
    by (rewrite Heq, (get_lux_value_present calc d1 v0 v1 H0 H1); reflexivity).
  rewrite (get_lux_unfold calc d), Hvalue.
  destruct (fst (TSL2561X.get_lux_value calc d)) as [e | v].
  - intros [= <- <-]. auto.
  - destruct (get_lux_value_from_formula calc d d1 v Hvalue) as (c0 & c1 & Hc).
    destruct (Hprint c0 c1 v Hc) as (r & Hr).
    cbv beta iota zeta. destruct (Py.neqb v (Int VAL_INVALID)).
    + change (self_LUX_VALUE (set_LUX_VALUE v d1)) with v. rewrite Hr.
      intros [= <- <-]. repeat split; auto. discriminate.
    + intros [= <- <-]. auto.
Qed.

(** What [get_lux] of the CS package and of the default class never
    does, whether it returns or raises: it changes no multiplier and
    replaces no register the dictionary holds; and when it raises, the
    cached reading is the one it found. *)
Theorem get_lux_leaves `{Libm} (d d' : device)
    (out : res (float * string * string)) :
  TSL2561CS.get_lux d = (out, d') \/ TSL2561.get_lux d = (out, d') ->
  time_multiplier d' = time_multiplier d
  /\ gain_multiplier d' = gain_multiplier d
  /\ (forall a v, registers d !! a = Some v -> registers d' !! a = Some v)
  /\ (forall e, out = raise e -> LUX_VALUE d' = LUX_VALUE d).
Proof.
  intros [Hrun | Hrun];
    refine (get_lux_leaves_for _ d d' out _ Hrun);
    intros c0 c1 v Hc; apply (calculate_lux_prints c0 c1 v); auto.
Qed.

Lemma get_lux_leaves_witness :
  fst (TSL2561.get_lux (H := Sample.libm) Cases.block_config)
  = raise AttributeError
  /\ LUX_VALUE (snd (TSL2561.get_lux (H := Sample.libm) Cases.block_config))
     = LUX_VALUE Cases.block_config.
Proof.
  split; [ reflexivity | ].
  apply (proj2 (proj2 (proj2 (@get_lux_leaves Sample.libm Cases.block_config
           (snd (TSL2561.get_lux (H := Sample.libm) Cases.block_config))
           (raise AttributeError) (or_intror eq_refl)))) AttributeError).
  reflexivity.
Defined.

End Repeat.

(** ** A dark channel, and the TSL4531 *)

Section Dark.
Import TSL_LIGHT_X.

Lemma guard_returns_sentinel `{Libm} (c0 c1 : num) :
  Py.eqb c0 (Int 0) = true ->
  TSL2561CS._calculate_lux c0 c1 = ok (Int VAL_INVALID)
  /\ TSL2561._calculate_lux c0 c1 = ok (Int VAL_INVALID).
Proof.
  intros Hzero. destruct (float_of_zero c0 Hzero) as (f & Hf & Hf0).
  unfold TSL2561._calculate_lux, TSL2561CS._calculate_lux,
    TSL2561T._calculate_lux.
  rewrite Hf. simpl. rewrite Hf0. split; reflexivity.
Qed.

(** A word of zero stays zero under every scaling the setters produce. *)
Lemma zero_word_scaled (tm gm scaling : num) :
  In tm [Int 1; Flt (322 / 81)%float; Flt (322 / 11)%float] ->
  In gm [Int 16; Int 1] -> Py.mul tm gm = ok scaling ->
  exists c0, Py.mul scaling (Int 0) = ok c0 /\ Py.eqb c0 (Int 0) = true.
Proof.
  intros Htm Hgm.
  destruct Htm as [<- | [<- | [<- | []]]], Hgm as [<- | [<- | []]];
    intros [= <-]; eexists; split; reflexivity.
Qed.

(** The stale-value policy on a configured TSL2561, whatever its time
    and gain: when channel 0 reads as zero, [get_lux] of the CS package
    and of the default class reports the reading cached before, to one
    decimal, and leaves the handle exactly as it was. *)
Theorem get_lux_dark `{Libm} (d : device)
    (lo1 hi1 : Z) (r0 r1 : list Z) (tm gm : num) :
  registers d !! TSL2561X.REG_CHANNEL_0_LOW = Some (RBytes (0 :: 0 :: r0)) ->
  registers d !! TSL2561X.REG_CHANNEL_1_LOW = Some (RBytes (lo1 :: hi1 :: r1)) ->
  0 <= lo1 < 256 -> 0 <= hi1 < 256 ->
  time_multiplier d = Some tm -> gain_multiplier d = Some gm ->
  In tm [Int 1; Flt (322 / 81)%float; Flt (322 / 11)%float] ->
  In gm [Int 16; Int 1] ->
  TSL2561CS.get_lux d
  = ((r <-? Py.format_1f (self_LUX_VALUE d) ;;
      ok (r, "lum"%string, "lux"%string))%res, d)
  /\ TSL2561.get_lux d
     = ((r <-? Py.format_1f (self_LUX_VALUE d) ;;
         ok (r, "lum"%string, "lux"%string))%res, d).
Proof.
  intros H0 H1 Hlo1 Hhi1 Htm Hgm Htm' Hgm'.
  destruct (scaled_word_converts tm gm _ Htm' Hgm'
              (proj2 (word_of_bytes lo1 hi1 Hlo1 Hhi1)))
    as (scaling & c1 & f1 & Hs & Hc1 & _).
  destruct (zero_word_scaled tm gm scaling Htm' Hgm' Hs) as (c0 & Hc0 & Hzero).
  destruct (guard_returns_sentinel c0 c1 Hzero) as (Hcs & Hdef).
  unfold TSL2561CS.get_lux, TSL2561.get_lux.
  rewrite !get_lux_unfold.
  rewrite !(get_lux_value_run _ d _ _ _ _ _ _ _ _ H0 H1 Htm Hgm).
  change (Z.lor (Z.shiftl 0 8) 0) with 0.
  rewrite Hs. simpl. rewrite Hc0. simpl. rewrite Hc1. simpl.
  rewrite Hcs, Hdef. split; reflexivity.
Qed.

Lemma get_lux_dark_witness :
  TSL2561CS.get_lux (H := Sample.libm) Sample.dark_after_reading
  = (ok (1069.5%float, "lum"%string, "lux"%string), Sample.dark_after_reading).
Proof.
  assert (B1 : 0 <= 0xD7 < 256) by lia.
  assert (B2 : 0 <= 0x02 < 256) by lia.
  exact (proj1 (@get_lux_dark Sample.libm Sample.dark_after_reading
                  0xD7 0x02 [] [] (Int 1) (Int 16)
                  eq_refl eq_refl B1 B2 eq_refl eq_refl
                  (or_introl eq_refl) (or_introl eq_refl))).
Defined.

(** [get_lux] of the TSL4531 after [set_time]: the [int] it reports,
    times the integration time in ms, is 400 times the little-endian word
    in the data register. It has no sentinel and no cache, raises
    nothing, and what it reports is between 0 and 262140. *)
Theorem get_lux_4531 (d : device) (b t lo hi : Z) (rest : list Z) :
  config_byte d = Some b -> In t [100; 200; 400] ->
  registers d !! TSL4531.REG_DATA_LOW = Some (RBytes (lo :: hi :: rest)) ->
  0 <= lo < 256 -> 0 <= hi < 256 ->
  exists lux,
    fst ((TSL4531.set_time t ;; TSL4531.get_lux) d)
    = ok (Int lux, "lum"%string, "lux"%string)
    /\ lux * t = 400 * (256 * hi + lo)
    /\ 0 <= lux <= 262140.
Proof.
  intros Hb Ht Hdata Hlo Hhi.
  destruct (_set_time_4531_run d b t Hb Ht) as (bits & m & Hcase & Hrun).
  destruct (word_of_bytes lo hi Hlo Hhi) as (Hword & Hrange).
  unfold bind, TSL4531.set_time, TSL_LIGHT_X.set_time. rewrite Hrun.
  unfold ok. cbv beta iota.
  unfold TSL4531.get_lux. autounfold with tsl.
  cbn [registers time_multiplier gain_multiplier LUX_VALUE set_registers fst snd].
  rewrite lookup_insert_ne by (intros E; vm_compute in E; discriminate E).
  rewrite Hdata. cbv beta iota.
  cbn [registers time_multiplier gain_multiplier LUX_VALUE set_registers fst snd].
  destruct Hcase as [(-> & _ & ->) | [(-> & _ & ->) | (-> & _ & ->)]];
    simpl; rewrite Hword; eexists; (split; [ reflexivity | lia ]).
Qed.

Lemma get_lux_4531_witness :
  fst ((TSL4531.set_time 100 ;; TSL4531.get_lux) Cases.photometer)
  = ok (Int 1088, "lum"%string, "lux"%string).
Proof.
  assert (B1 : 0 <= 0x10 < 256) by lia.
  assert (B2 : 0 <= 0x01 < 256) by lia.
  assert (Hc : config_byte Cases.photometer = Some 0)
    by (vm_compute; reflexivity).
  assert (Hd : registers Cases.photometer !! TSL4531.REG_DATA_LOW
               = Some (RBytes [0x10; 0x01])) by (vm_compute; reflexivity).
  destruct (get_lux_4531 Cases.photometer 0 100 0x10 0x01 [] Hc
              (or_introl eq_refl) Hd B1 B2) as (lux & -> & Hlux & _).
  replace lux with 1088 by lia. reflexivity.
Defined.

End Dark.
